(** * IntelliShare front end (frontend/src/App.js): upload, listing and
      analytics state, and the views derived from it.

    The React components of App.js are embedded as follows.

    - Hook state ([useState]) becomes record fields: [UploaderState] for
      [FileUploader], [AppState] for [App].
    - An [async] handler is split at its [await]: the part before it
      ([*_start]) issues the axios request and registers what is waiting for
      the answer; the part after it ([*_resume]) runs when the answer is
      delivered. Both parts are written in a small state-and-exception monad
      [M], with [try_catch_finally] for the JavaScript statement of that name.
    - The browser and the network drive the program through [Event]s; [fire]
      runs the handler of one event and then re-renders ([render_commit]),
      which mounts or unmounts [FileUploader] as the JSX
      [{activeTab === 'upload' && <FileUploader .../>}] does.
    - Rendered output is a tree of [Node]s carrying the [className]s of the
      JSX.

    [SearchBar] only assembles the argument of [handleSearch]; the events
    below carry that argument. [FileCard] passes [file.ai_analysis] to
    [AIAnalysisCard] unchanged. *)

From stdpp Require Import base option gmap strings list.
From Stdlib Require Import ZArith Lia Ascii.

Set Warnings "-register-all,-clear-no-such-hyp".

Local Open Scope string_scope.
Local Open Scope list_scope.

(** ** Data received from the backend *)

(** A JSON value as the analysis object carries them: [null], a string, or
    an array of strings. *)
Inductive JV :=
| JNull
| JStr (s : string)
| JArr (l : list string).

(** JavaScript truthiness: [null] and the empty string are falsy, every
    array is truthy. *)
Definition truthy (v : JV) : bool :=
  match v with
  | JNull => false
  | JStr s => negb (String.eqb s "")
  | JArr _ => true
  end.

(** [Array.prototype.join] on an array of strings. *)
Definition join (sep : string) (l : list string) : string := String.concat sep l.

(** String conversion, as a template literal performs it. *)
Definition toString (v : JV) : string :=
  match v with
  | JNull => "null"
  | JStr s => s
  | JArr l => join "," l
  end.

(** [file.ai_analysis]: a JavaScript object, keyed by field name. *)
Abbreviation Analysis := (gmap string JV).

Module Rec.

(** One element of the array answered by [GET /api/files] and
    [POST /api/search]. *)
Record file_record := {
  id : string;
  original_filename : string;
  file_type : string;
  file_size : Z;
  upload_timestamp : string;
  tags : option (list string);
  ai_analysis : option Analysis
}.

End Rec.

Module Stats.

Record bucket := { _id : string; count : Z }.

(** The object answered by [GET /api/analytics]. *)
Record analytics := {
  total_files : Z;
  ai_analysis_rate : string;
  file_type_distribution : option (list bucket);
  top_tags : option (list bucket)
}.

End Stats.

(** The browser's [File] object of the selected file. *)
Record Blob := { blob_name : string; blob_size : Z }.

(** [response.data] of [POST /api/upload] when it is not [null]: the
    truthiness of its [success] field and the remaining fields, which the
    front end never reads. *)
Record UploadData := { success : bool; metadata : gmap string JV }.

(** The argument of [handleSearch], built by [SearchBar]. *)
Record SearchParams := { query : string; search_tags : option (list string) }.

(** ** Component state *)

Inductive Tab := TabUpload | TabFiles | TabAnalytics.

(** The five [useState] hooks of [FileUploader]. *)
Record UploaderState := {
  file : option Blob;
  tags : string;
  isPublic : bool;
  uploading : bool;
  dragOver : bool
}.

Definition initUploader : UploaderState :=
  {| file := None; tags := ""; isPublic := false; uploading := false; dragOver := false |}.

(** The four [useState] hooks of [App]. *)
Record AppState := {
  files : list Rec.file_record;
  analytics : option Stats.analytics;
  loading : bool;
  activeTab : Tab
}.

Definition initApp : AppState :=
  {| files := []; analytics := None; loading := true; activeTab := TabUpload |}.

(** ** Effects *)

Definition Err := string.

Inductive Body :=
| FormData (f : Blob) (tags_field : string) (is_public : bool)
| Json (p : SearchParams).

(** An axios call; [path] is relative to [API]. *)
Inductive Req :=
| GET (path : string)
| POST (path : string) (body : Body).

Definition API (BACKEND_URL : string) : string := BACKEND_URL +:+ "/api".

Definition url (BACKEND_URL : string) (r : Req) : string :=
  match r with
  | GET p | POST p _ => API BACKEND_URL +:+ p
  end.

(** What the program does to the outside, in the order it does it. *)
Inductive Effect :=
| Request (n : nat) (r : Req)
| ConsoleError (msg : string) (e : Err)
| Alert (msg : string).

(** The code waiting for the answer to a request in flight. [PUpload i] is
    the rest of [handleUpload] of the [FileUploader] instance [i]. *)
Inductive Pending :=
| PUpload (inst : nat)
| PFiles
| PAnalytics
| PSearch.

Record World := {
  app : AppState;
  uploader : option (nat * UploaderState);
  mounts : nat;
  pending : gmap nat Pending;
  next_req : nat;
  log : list Effect
}.

Definition with_app (f : AppState -> AppState) (w : World) : World :=
  {| app := f (app w); uploader := uploader w; mounts := mounts w;
     pending := pending w; next_req := next_req w; log := log w |}.

Definition with_uploader (u : option (nat * UploaderState)) (w : World) : World :=
  {| app := app w; uploader := u; mounts := mounts w;
     pending := pending w; next_req := next_req w; log := log w |}.

Definition emit (e : Effect) (w : World) : World :=
  {| app := app w; uploader := uploader w; mounts := mounts w;
     pending := pending w; next_req := next_req w; log := log w ++ [e] |}.

(** ** The handler monad: state and JavaScript exceptions *)

Inductive Res (A : Type) :=
| Ok (a : A)
| Throw (e : Err).
Arguments Ok {A} a.
Arguments Throw {A} e.

Definition M (A : Type) : Type := World -> Res A * World.

Definition ret {A} (a : A) : M A := fun w => (Ok a, w).

Definition bind {A B} (m : M A) (k : A -> M B) : M B := fun w =>
  match m w with
  | (Ok a, w') => k a w'
  | (Throw e, w') => (Throw e, w')
  end.

Definition throw {A} (e : Err) : M A := fun w => (Throw e, w).

Declare Scope js_scope.
Delimit Scope js_scope with js.
Notation "x <- m ;; k" := (bind m (fun x => k))
  (at level 100, m at next level, right associativity) : js_scope.
Notation "m ;; k" := (bind m (fun _ => k))
  (at level 100, right associativity) : js_scope.
Local Open Scope js_scope.

(** [try { body } catch (error) { handler } finally { fin }] *)
Definition try_catch_finally {A} (body : M A) (handler : Err -> M A) (fin : M unit) : M A :=
  fun w =>
    let '(r, w1) :=
      match body w with
      | (Throw e, w1) => handler e w1
      | (Ok a, w1) => (Ok a, w1)
      end in
    match fin w1 with
    | (Ok _, w2) => (r, w2)
    | (Throw e, w2) => (Throw e, w2)
    end.

(** [try { body } catch (error) { handler }] *)
Definition try_catch {A} (body : M A) (handler : Err -> M A) : M A :=
  try_catch_finally body handler (ret tt).

Definition modify (f : World -> World) : M unit := fun w => (Ok tt, f w).

(** *** State setters *)

Definition setFiles (l : list Rec.file_record) : M unit :=
  modify (with_app (fun a =>
    {| files := l; analytics := analytics a; loading := loading a; activeTab := activeTab a |})).

Definition setAnalytics (s : option Stats.analytics) : M unit :=
  modify (with_app (fun a =>
    {| files := files a; analytics := s; loading := loading a; activeTab := activeTab a |})).

Definition setLoading (b : bool) : M unit :=
  modify (with_app (fun a =>
    {| files := files a; analytics := analytics a; loading := b; activeTab := activeTab a |})).

Definition setActiveTab (t : Tab) : M unit :=
  modify (with_app (fun a =>
    {| files := files a; analytics := analytics a; loading := loading a; activeTab := t |})).

(** A setter of the [FileUploader] instance [inst]. React drops a state
    update addressed to a component that is no longer mounted. *)
Definition update_uploader (inst : nat) (f : UploaderState -> UploaderState) : M unit :=
  modify (fun w =>
    match uploader w with
    | Some (i, u) => if Nat.eqb i inst then with_uploader (Some (i, f u)) w else w
    | None => w
    end).

Definition setFile (inst : nat) (v : option Blob) : M unit :=
  update_uploader inst (fun u =>
    {| file := v; tags := tags u; isPublic := isPublic u;
       uploading := uploading u; dragOver := dragOver u |}).

Definition setTags (inst : nat) (v : string) : M unit :=
  update_uploader inst (fun u =>
    {| file := file u; tags := v; isPublic := isPublic u;
       uploading := uploading u; dragOver := dragOver u |}).

Definition setIsPublic (inst : nat) (v : bool) : M unit :=
  update_uploader inst (fun u =>
    {| file := file u; tags := tags u; isPublic := v;
       uploading := uploading u; dragOver := dragOver u |}).

Definition setUploading (inst : nat) (v : bool) : M unit :=
  update_uploader inst (fun u =>
    {| file := file u; tags := tags u; isPublic := isPublic u;
       uploading := v; dragOver := dragOver u |}).

Definition setDragOver (inst : nat) (v : bool) : M unit :=
  update_uploader inst (fun u =>
    {| file := file u; tags := tags u; isPublic := isPublic u;
       uploading := uploading u; dragOver := v |}).

(** *** Browser and network primitives *)

Definition console_error (msg : string) (e : Err) : M unit := modify (emit (ConsoleError msg e)).

Definition alert (msg : string) : M unit := modify (emit (Alert msg)).

(** Sending a request: it is logged under the next request number and its
    continuation [k] is recorded as in flight. *)
Definition axios (r : Req) (k : Pending) : M unit :=
  modify (fun w =>
    {| app := app w; uploader := uploader w; mounts := mounts w;
       pending := <[next_req w := k]> (pending w);
       next_req := S (next_req w);
       log := log w ++ [Request (next_req w) r] |}).

(** The answer to a request: the promise resolves with [response.data] or
    rejects with an error. *)
Inductive Outcome (D : Type) :=
| Resolved (data : D)
| Rejected (e : Err).
Arguments Resolved {D} data.
Arguments Rejected {D} e.

(** [await]: a rejected promise throws at the [await]. *)
Definition await {D} (o : Outcome D) : M D :=
  match o with
  | Resolved d => ret d
  | Rejected e => throw e
  end.

(** ** App: loading, searching *)

Definition loadFiles_start : M unit := axios (GET "/files") PFiles.

Definition loadFiles_resume (o : Outcome (list Rec.file_record)) : M unit :=
  try_catch_finally
    (response <- await o ;; setFiles response)
    (fun error => console_error "Failed to load files:" error)
    (setLoading false).

Definition loadAnalytics_start : M unit := axios (GET "/analytics") PAnalytics.

Definition loadAnalytics_resume (o : Outcome Stats.analytics) : M unit :=
  try_catch
    (response <- await o ;; setAnalytics (Some response))
    (fun error => console_error "Failed to load analytics:" error).

Definition handleUploadSuccess (uploadResult : UploadData) : M unit :=
  loadFiles_start ;;
  loadAnalytics_start ;;
  setActiveTab TabFiles.

Definition handleSearch_start (searchParams : SearchParams) : M unit :=
  axios (POST "/search" (Json searchParams)) PSearch.

Definition handleSearch_resume (o : Outcome (list Rec.file_record)) : M unit :=
  try_catch
    (response <- await o ;; setFiles response)
    (fun error => console_error "Search failed:" error).

Definition resetSearch : M unit := loadFiles_start.

(** ** FileUploader *)

Definition handleFileSelect (inst : nat) (selectedFile : option Blob) : M unit :=
  setFile inst selectedFile.

Definition handleDrop (inst : nat) (droppedFile : option Blob) : M unit :=
  setDragOver inst false ;;
  match droppedFile with
  | Some f => handleFileSelect inst (Some f)
  | None => ret tt
  end.

Definition handleDragOver (inst : nat) : M unit := setDragOver inst true.

Definition handleDragLeave (inst : nat) : M unit := setDragOver inst false.

(** [handleUpload] up to its [await]. [c] holds the values of [file],
    [tags] and [isPublic] that the closure captured at the last render;
    [onUploadSuccess] is the prop passed by [App]. *)
Definition handleUpload_start (inst : nat) (c : UploaderState) : M unit :=
  match file c with
  | None => ret tt
  | Some f =>
      setUploading inst true ;;
      axios (POST "/upload" (FormData f (tags c) (isPublic c))) (PUpload inst)
  end.

(** Reading a property of [response.data]: the body is [None] when it is
    [null] or [undefined], and the read then throws a [TypeError]. *)
Definition non_null (data : option UploadData) : M UploadData :=
  match data with
  | Some d => ret d
  | None => throw "Cannot read properties of null (reading 'success')"
  end.

(** [handleUpload] from its [await] on: [o] is the outcome of the request,
    with [response.data] as its value. *)
Definition handleUpload_resume (onUploadSuccess : UploadData -> M unit)
    (inst : nat) (o : Outcome (option UploadData)) : M unit :=
  try_catch_finally
    (response <- await o ;;
     data <- non_null response ;;
     if success data then
       onUploadSuccess data ;;
       setFile inst None ;;
       setTags inst "" ;;
       setIsPublic inst false
     else ret tt)
    (fun error =>
       console_error "Upload failed:" error ;;
       alert "Upload failed. Please try again.")
    (setUploading inst false).

(** ** Events *)

(** The answer of the backend to one request: a rejection, or a resolved
    answer with its body. [UploadNull] is a resolved answer to an upload
    whose [response.data] is [null] or [undefined]. *)
Inductive Reply :=
| Failed (e : Err)
| UploadReply (d : UploadData)
| FilesReply (l : list Rec.file_record)
| AnalyticsReply (a : Stats.analytics)
| UploadNull.

Inductive Event :=
| SelectFile (f : option Blob)
| DropFile (f : option Blob)
| DragOverZone
| DragLeaveZone
| TypeTags (s : string)
| CheckPublic (b : bool)
| ClickUpload
| ClickTab (t : Tab)
| SubmitSearch (p : SearchParams)
| ClickReset
| Deliver (n : nat) (r : Reply).

(** The continuation of a request in flight, applied to its answer. An
    answer of the wrong shape for the request has no continuation. *)
Definition resume (k : Pending) (r : Reply) : option (M unit) :=
  match k, r with
  | PUpload i, Failed e => Some (handleUpload_resume handleUploadSuccess i (Rejected e))
  | PUpload i, UploadReply d =>
      Some (handleUpload_resume handleUploadSuccess i (Resolved (Some d)))
  | PUpload i, UploadNull => Some (handleUpload_resume handleUploadSuccess i (Resolved None))
  | PFiles, Failed e => Some (loadFiles_resume (Rejected e))
  | PFiles, FilesReply l => Some (loadFiles_resume (Resolved l))
  | PAnalytics, Failed e => Some (loadAnalytics_resume (Rejected e))
  | PAnalytics, AnalyticsReply a => Some (loadAnalytics_resume (Resolved a))
  | PSearch, Failed e => Some (handleSearch_resume (Rejected e))
  | PSearch, FilesReply l => Some (handleSearch_resume (Resolved l))
  | _, _ => None
  end.

Definition settle (n : nat) : M unit :=
  modify (fun w =>
    {| app := app w; uploader := uploader w; mounts := mounts w;
       pending := delete n (pending w); next_req := next_req w; log := log w |}).

(** The handler the JSX attaches to an event, or [None] when the element
    that would raise the event is not rendered: the uploader only exists on
    the upload tab, its options and button only once a file is selected
    ([{file && ...}]), the button is [disabled] while [uploading], the
    search bar and the reset button only exist on the files tab. *)
Definition handler (w : World) (ev : Event) : option (M unit) :=
  match ev with
  | SelectFile f =>
      match uploader w with Some (i, _) => Some (handleFileSelect i f) | None => None end
  | DropFile f =>
      match uploader w with Some (i, _) => Some (handleDrop i f) | None => None end
  | DragOverZone =>
      match uploader w with Some (i, _) => Some (handleDragOver i) | None => None end
  | DragLeaveZone =>
      match uploader w with Some (i, _) => Some (handleDragLeave i) | None => None end
  | TypeTags s =>
      match uploader w with
      | Some (i, u) => match file u with Some _ => Some (setTags i s) | None => None end
      | None => None
      end
  | CheckPublic b =>
      match uploader w with
      | Some (i, u) => match file u with Some _ => Some (setIsPublic i b) | None => None end
      | None => None
      end
  | ClickUpload =>
      match uploader w with
      | Some (i, u) =>
          match file u with
          | Some _ => if uploading u then None else Some (handleUpload_start i u)
          | None => None
          end
      | None => None
      end
  | ClickTab t => Some (setActiveTab t)
  | SubmitSearch p =>
      match activeTab (app w) with TabFiles => Some (handleSearch_start p) | _ => None end
  | ClickReset =>
      match activeTab (app w) with TabFiles => Some resetSearch | _ => None end
  | Deliver n r =>
      match pending w !! n with
      | Some k =>
          match resume k r with
          | Some m => Some (settle n ;; m)
          | None => None
          end
      | None => None
      end
  end.

(** Re-rendering [App] after the state updates of a handler:
    [{activeTab === 'upload' && <FileUploader .../>}] keeps the mounted
    uploader while the upload tab is active, mounts a fresh instance (with
    the initial values of its hooks) when the tab becomes active, and
    unmounts it, discarding its hook state, on every other tab. *)
Definition render_commit (w : World) : World :=
  match activeTab (app w) with
  | TabUpload =>
      match uploader w with
      | Some _ => w
      | None =>
          {| app := app w; uploader := Some (mounts w, initUploader); mounts := S (mounts w);
             pending := pending w; next_req := next_req w; log := log w |}
      end
  | _ => with_uploader None w
  end.

(** Running the handler of an event, before the re-render. *)
Definition handle (w : World) (ev : Event) : option (Res unit * World) :=
  match handler w ev with
  | Some m => Some (m w)
  | None => None
  end.

(** One event: run its handler, then re-render. The result of the handler
    ([Ok], or [Throw] for an exception that escapes it) is kept. *)
Definition fire (w : World) (ev : Event) : option (Res unit * World) :=
  match handle w ev with
  | Some (r, w') => Some (r, render_commit w')
  | None => None
  end.

Definition step (w : World) (ev : Event) : option World := snd <$> fire w ev.

Fixpoint run (w : World) (evs : list Event) : option World :=
  match evs with
  | [] => Some w
  | ev :: evs' =>
      match step w ev with
      | Some w' => run w' evs'
      | None => None
      end
  end.

(** The page before [App]'s mount effect has run. *)
Definition blank : World :=
  {| app := initApp; uploader := Some (0, initUploader); mounts := 1;
     pending := ∅; next_req := 0; log := [] |}.

(** [useEffect(() => { loadFiles(); loadAnalytics(); }, [])] *)
Definition mountEffect : M unit := loadFiles_start ;; loadAnalytics_start.

Definition mounted : World := snd (mountEffect blank).

(** ** Views *)

(** Rendered output: an element with its tag, [className] and children, a
    text, or a number. *)
Inductive Node :=
| El (tag className : string) (children : list Node)
| Txt (s : string)
| Num (z : Z).

(** The elements of class [c] in a rendered tree, in document order. *)
Fixpoint select (c : string) (n : Node) : list Node :=
  match n with
  | El _ cls ch => (if String.eqb cls c then [n] else []) ++ concat (select c <$> ch)
  | _ => []
  end.

Definition select_list (c : string) (l : list Node) : list Node := concat (select c <$> l).

(** [{v}] as a JSX child: [null] renders nothing, an array renders its
    elements. *)
Definition child (v : JV) : list Node :=
  match v with
  | JNull => []
  | JStr s => [Txt s]
  | JArr l => Txt <$> l
  end.

(** [{v && (jsx)}]: the element when [v] is truthy; a falsy [v] (absent,
    [null] or the empty string) renders nothing. *)
Definition guarded (v : option JV) (jsx : JV -> Node) : list Node :=
  match v with
  | Some x => if truthy x then [jsx x] else []
  | None => []
  end.

(** [Array.isArray(v) ? v.join(', ') : v] *)
Definition joined (v : JV) : JV :=
  match v with
  | JArr l => JStr (join ", " l)
  | _ => v
  end.

Definition analysis_item (label : string) (content : list Node) : Node :=
  El "div" "analysis-item" (El "strong" "" [Txt label] :: content).

(** [analysis.tags && analysis.tags.length > 0 && (...)]: [tags.map] only
    exists on an array; on a non-empty string the call throws. *)
Definition ai_tags (v : option JV) : Res (list Node) :=
  match v with
  | Some (JArr l) =>
      Ok (if (0 <? length l)%nat
          then [analysis_item "AI Tags:"
                  [El "div" "tags-container" ((fun tag => El "span" "tag" [Txt tag]) <$> l)]]
          else [])
  | Some (JStr s) =>
      if truthy (JStr s) then Throw "analysis.tags.map is not a function" else Ok []
  | Some JNull | None => Ok []
  end.

Definition AIAnalysisCard (analysis : option Analysis) : Res (option Node) :=
  match analysis with
  | None => Ok None
  | Some a =>
      if (size a =? 0)%nat then Ok None
      else
        match ai_tags (a !! "tags") with
        | Throw e => Throw e
        | Ok tag_items =>
            Ok (Some (El "div" "ai-analysis-card" [
              El "div" "analysis-header" [
                El "span" "ai-badge" [Txt "🤖 AI Analysis"];
                El "span" "model-badge" (default [] (child <$> a !! "ai_model"))];
              El "div" "analysis-content" (List.concat [
                guarded (a !! "classification")
                  (fun v => analysis_item "Classification:" (Txt " " :: child v));
                guarded (a !! "summary")
                  (fun v => analysis_item "Summary:" (Txt " " :: child v));
                guarded (a !! "description")
                  (fun v => analysis_item "Description:" (Txt " " :: child v));
                guarded (a !! "key_topics")
                  (fun v => analysis_item "Key Topics:" (Txt " " :: child (joined v)));
                guarded (a !! "key_subjects")
                  (fun v => analysis_item "Key Subjects:" (Txt " " :: child (joined v)));
                guarded (a !! "entities")
                  (fun v => analysis_item "Entities:" (Txt " " :: child (joined v)));
                tag_items;
                guarded (a !! "confidence")
                  (fun v => analysis_item "Confidence:"
                     [El "span" ("confidence " +:+ toString v) (child v)])])]))
        end
  end.

(** The callbacks of the two [map] calls in [Analytics]. *)
Definition type_stat (type : Stats.bucket) : Node :=
  El "div" "type-stat" [
    El "span" "" [Txt (Stats._id type)];
    El "span" "" [Num (Stats.count type)]].

Definition popular_tag (tag : Stats.bucket) : Node :=
  El "span" "popular-tag" [Txt (Stats._id tag); Txt " ("; Num (Stats.count tag); Txt ")"].

(** [l && l.length > 0 && (jsx)] on an array. *)
Definition nonempty {A} (l : option (list A)) (jsx : list A -> Node) : list Node :=
  match l with
  | Some x => if (0 <? length x)%nat then [jsx x] else []
  | None => []
  end.

(** [Array.prototype.slice(0, n)] *)
Definition slice0 {A} (n : nat) (l : list A) : list A := take n l.

Definition Analytics (analytics : option Stats.analytics) : option Node :=
  match analytics with
  | None => None
  | Some a =>
      Some (El "div" "analytics-section" [
        El "h2" "" [Txt "📊 Platform Analytics"];
        El "div" "analytics-grid" (List.concat [
          [El "div" "stat-card" [
            El "div" "stat-number" [Num (Stats.total_files a)];
            El "div" "stat-label" [Txt "Total Files"]]];
          [El "div" "stat-card" [
            El "div" "stat-number" [Txt (Stats.ai_analysis_rate a)];
            El "div" "stat-label" [Txt "AI Analysis Rate"]]];
          nonempty (Stats.file_type_distribution a) (fun d =>
            El "div" "file-types-card"
               (El "h3" "" [Txt "File Types"] :: (type_stat <$> slice0 5 d)));
          nonempty (Stats.top_tags a) (fun t =>
            El "div" "top-tags-card" [
              El "h3" "" [Txt "Popular Tags"];
              El "div" "popular-tags" (popular_tag <$> slice0 10 t)])])])
  end.

(** ** Vocabulary of the statements *)




(** The uploader after [setUploading(false)]. *)
Definition stopped (u : UploaderState) : UploaderState :=
  {| file := file u; tags := tags u; isPublic := isPublic u;
     uploading := false; dragOver := dragOver u |}.

(** The uploader after [setFile(null); setTags(""); setIsPublic(false);
    setUploading(false)]. *)
Definition cleared (u : UploaderState) : UploaderState :=
  {| file := None; tags := ""; isPublic := false;
     uploading := false; dragOver := dragOver u |}.

(** The message of the [console.error] in the [catch] block of each
    continuation. *)
Definition catch_message (k : Pending) : string :=
  match k with
  | PUpload _ => "Upload failed:"
  | PFiles => "Failed to load files:"
  | PAnalytics => "Failed to load analytics:"
  | PSearch => "Search failed:"
  end.

(** ** Sample sessions *)

Definition report : Blob := {| blob_name := "report.pdf"; blob_size := 2097152 |}.

(** A 2 MB file is selected, tagged and marked public. *)
Definition selected : World :=
  default blank
    (run mounted [SelectFile (Some report); TypeTags "work, urgent"; CheckPublic true]).

(** ... and the upload button is clicked: request 2 is in flight. *)
Definition submitted : World := default selected (step selected ClickUpload).

Definition refused : UploadData := {| success := false; metadata := ∅ |}.

Definition accepted : UploadData :=
  {| success := true; metadata := {[ "id" := JStr "abc" ]} |}.

Definition listing : list Rec.file_record :=
  [ {| Rec.id := "1"; Rec.original_filename := "invoice-march.pdf";
       Rec.file_type := "application/pdf"; Rec.file_size := 2097152;
       Rec.upload_timestamp := "2025-03-01T10:00:00";
       Rec.tags := Some ["work"]; Rec.ai_analysis := None |};
    {| Rec.id := "2"; Rec.original_filename := "holiday.png";
       Rec.file_type := "image/png"; Rec.file_size := 1024;
       Rec.upload_timestamp := "2025-03-02T10:00:00";
       Rec.tags := None; Rec.ai_analysis := Some {[ "ai_model" := JStr "x" ]} |} ].

(** The initial listing has arrived and the files tab is open; the
    analytics request 1 is still in flight. *)
Definition browsing : World :=
  default blank (run mounted [Deliver 0 (FilesReply listing); ClickTab TabFiles]).

Definition invoice : SearchParams := {| query := "invoice"; search_tags := None |}.

Definition bucket_row (n : nat) : Stats.bucket :=
  {| Stats._id := "b"; Stats.count := Z.of_nat n |}.

(** A snapshot with 8 file types and 15 tags. *)
Definition busy_snapshot : Stats.analytics :=
  {| Stats.total_files := 40; Stats.ai_analysis_rate := "95%";
     Stats.file_type_distribution := Some (bucket_row <$> seq 0 8);
     Stats.top_tags := Some (bucket_row <$> seq 0 15) |}.


(** ** SearchBar *)

(** Strings are held as their UTF-8 bytes. *)
Definition bytes (s : string) : list ascii := String.list_ascii_of_string s.

Definition byte (n : nat) : ascii := Ascii.ascii_of_nat n.

(** [String.prototype.split] with a one-character separator. *)
Fixpoint split (sep : ascii) (s : string) : list string :=
  match s with
  | "" => [""]
  | String c s' =>
      if Ascii.eqb c sep then "" :: split sep s'
      else match split sep s' with
           | piece :: pieces => String c piece :: pieces
           | [] => [String c ""]
           end
  end.

(** The code points that [String.prototype.trim] strips (the WhiteSpace and
    LineTerminator characters of ECMAScript), in UTF-8: tab, line feed,
    vertical tab, form feed, carriage return, space, U+00A0, U+1680,
    U+2000 to U+200A, U+2028, U+2029, U+202F, U+205F, U+3000, U+FEFF. *)
Definition white_space : list (list ascii) :=
  [ [byte 9]; [byte 10]; [byte 11]; [byte 12]; [byte 13]; [byte 32];
    [byte 194; byte 160];
    [byte 225; byte 154; byte 128];
    [byte 226; byte 128; byte 128]; [byte 226; byte 128; byte 129];
    [byte 226; byte 128; byte 130]; [byte 226; byte 128; byte 131];
    [byte 226; byte 128; byte 132]; [byte 226; byte 128; byte 133];
    [byte 226; byte 128; byte 134]; [byte 226; byte 128; byte 135];
    [byte 226; byte 128; byte 136]; [byte 226; byte 128; byte 137];
    [byte 226; byte 128; byte 138];
    [byte 226; byte 128; byte 168]; [byte 226; byte 128; byte 169];
    [byte 226; byte 128; byte 175];
    [byte 226; byte 129; byte 159];
    [byte 227; byte 128; byte 128];
    [byte 239; byte 187; byte 191] ].

(** [l] without its prefix [p], if it has that prefix. *)
Fixpoint strip_prefix (p l : list ascii) : option (list ascii) :=
  match p, l with
  | [], _ => Some l
  | a :: p', b :: l' => if Ascii.eqb a b then strip_prefix p' l' else None
  | _ :: _, [] => None
  end.

(** [l] without one leading element of [ws], if it starts with one. *)
Fixpoint strip_one (ws : list (list ascii)) (l : list ascii) : option (list ascii) :=
  match ws with
  | [] => None
  | p :: ws' =>
      match strip_prefix p l with
      | Some r => Some r
      | None => strip_one ws' l
      end
  end.

(** Stripping leading elements of [ws] for as long as there is one; [fuel]
    bounds the number of rounds. *)
Fixpoint strip_all (ws : list (list ascii)) (fuel : nat) (l : list ascii) : list ascii :=
  match fuel with
  | 0 => l
  | S fuel' =>
      match strip_one ws l with
      | Some r => strip_all ws fuel' r
      | None => l
      end
  end.

Definition trimStart_bytes (l : list ascii) : list ascii :=
  strip_all white_space (length l) l.

Definition trimEnd_bytes (l : list ascii) : list ascii :=
  reverse (strip_all (reverse <$> white_space) (length l) (reverse l)).

(** [String.prototype.trim] *)
Definition trim (s : string) : string :=
  String.string_of_list_ascii (trimEnd_bytes (trimStart_bytes (bytes s))).

(** The number of times the character [c] occurs in [s]. *)
Fixpoint occurrences (c : ascii) (s : string) : nat :=
  match s with
  | "" => 0
  | String a s' => (if Ascii.eqb a c then 1 else 0) + occurrences c s'
  end.

Module SearchBar.

(** The two [useState] hooks of [SearchBar]. *)
Record state := { query : string; searchTags : string }.

Definition init : state := {| query := ""; searchTags := "" |}.

(** The object [handleSearch] passes to [onSearch]:
    [{ query, tags: searchTags ? searchTags.split(',').map(t => t.trim()) : null }] *)
Definition handleSearch (st : state) : SearchParams :=
  Build_SearchParams
    (query st)
    (if String.eqb (searchTags st) "" then None
     else Some (trim <$> split "," (searchTags st))).

End SearchBar.

(** ** FileCard: the icon of a MIME type *)

(** [String.prototype.includes] *)
Fixpoint includes (sub s : string) : bool :=
  String.prefix sub s ||
  match s with
  | "" => false
  | String _ s' => includes sub s'
  end.

(** [String.prototype.startsWith] *)
Definition startsWith (p s : string) : bool := String.prefix p s.

Definition getFileIcon (fileType : string) : string :=
  if startsWith "image/" fileType then "🖼️"
  else if includes "pdf" fileType then "📄"
  else if startsWith "text/" fileType then "📝"
  else if includes "video" fileType then "🎥"
  else if includes "audio" fileType then "🎵"
  else "📁".

(** ** Reachable worlds *)

(** The worlds the page can be in: those that some sequence of events
    leads to from the mounted page. *)
Definition reachable (w : World) : Prop := exists evs, run mounted evs = Some w.

Definition is_upload (k : Pending) : bool :=
  match k with
  | PUpload _ => true
  | _ => false
  end.

(** Bookkeeping kept by every handler and by the re-render: instance and
    request numbers are below their counters, every upload in flight belongs
    to an instance that was mounted, an instance has at most one upload in
    flight, and the mounted instance is [uploading] exactly while it has
    one. *)
Record tracked_at (up : option (nat * UploaderState)) (ms : nat)
    (p : gmap nat Pending) (nr : nat) : Prop := {
  tracked_instance : forall i u, up = Some (i, u) -> i < ms;
  tracked_request : forall n k, p !! n = Some k -> n < nr;
  tracked_owner : forall n i, p !! n = Some (PUpload i) -> i < ms;
  tracked_single : forall n m i,
    p !! n = Some (PUpload i) -> p !! m = Some (PUpload i) -> n = m;
  tracked_flag : forall i u, up = Some (i, u) ->
    (uploading u = true <-> exists n, p !! n = Some (PUpload i))
}.

Definition tracked (w : World) : Prop :=
  tracked_at (uploader w) (mounts w) (pending w) (next_req w).

(** The four requests of the HTTP contract. *)
Definition contract (r : Req) : bool :=
  match r with
  | GET path => String.eqb path "/files" || String.eqb path "/analytics"
  | POST path (FormData _ _ _) => String.eqb path "/upload"
  | POST path (Json _) => String.eqb path "/search"
  end.

Definition upload_alert : string := "Upload failed. Please try again.".

(** The collection and the snapshot after an event, as a function of the
    event alone. *)
Definition files_after (ev : Event) (before : list Rec.file_record)
    : list Rec.file_record :=
  match ev with
  | Deliver _ (FilesReply l) => l
  | _ => before
  end.

Definition analytics_after (ev : Event) (before : option Stats.analytics)
    : option Stats.analytics :=
  match ev with
  | Deliver _ (AnalyticsReply a) => Some a
  | _ => before
  end.

(** ** Vocabulary for the analysis card *)

(** The [TypeError] of calling [map] on a string. *)
Definition tags_error : Err := "analysis.tags.map is not a function".

(** The keys rendered under a truthiness guard, with their labels. *)
Definition guarded_fields : list (string * string) :=
  [ ("classification", "Classification:"); ("summary", "Summary:");
    ("description", "Description:"); ("key_topics", "Key Topics:");
    ("key_subjects", "Key Subjects:"); ("entities", "Entities:");
    ("confidence", "Confidence:") ].

(** The card shows an item with this label. *)
Definition shown (label : string) (view : Node) : Prop :=
  exists content, analysis_item label content ∈ select "analysis-item" view.

(** ** The page: FileUploader, SearchBar, FileCard and App as rendered *)

(** What the JavaScript runtime formats: [megabytes n] is
    [(n / 1024 / 1024).toFixed(2)] and [formatDate] is the function of that
    name in [FileCard], a call of [Date.prototype.toLocaleDateString]. *)
Class Formatting := {
  megabytes : Z -> string;
  formatDate : string -> string
}.

(** A property of an element other than [className]. Event handler props
    are functions and are not listed; [handler] gives them. The [style]
    object is listed by field, as [style.display]. *)
Inductive Attr :=
| AttrS (name value : string)
| AttrB (name : string) (value : bool).

(** Rendered output of the components below: an element (tag, [className],
    other properties, children), a text, a number, or the output of
    [AIAnalysisCard] or [Analytics]. *)
Inductive Html :=
| Tag (tag className : string) (attrs : list Attr) (children : list Html)
| Text (s : string)
| Number (z : Z)
| Component (n : Node).

(** The elements of class [c] in a rendered page, in document order. *)
Fixpoint pick (c : string) (h : Html) : list Html :=
  match h with
  | Tag _ cls _ ch => (if String.eqb cls c then [h] else []) ++ concat (pick c <$> ch)
  | Component n => Component <$> select c n
  | _ => []
  end.

Definition pick_list (c : string) (l : list Html) : list Html := concat (pick c <$> l).

Section Page.

Context {fmt : Formatting}.

Definition FileUploader (u : UploaderState) : Html :=
  Tag "div" "file-uploader" [] (
    [ Tag "div" ("upload-zone " +:+ (if dragOver u then "drag-over" else "")) [] [
        Tag "input" ""
          [AttrS "id" "file-input"; AttrS "type" "file";
           AttrS "style.display" "none"; AttrS "accept" "*"] [];
        match file u with
        | Some f =>
            Tag "div" "file-selected" [] [
              Tag "div" "file-icon" [] [Text "📄"];
              Tag "div" "file-info" [] [
                Tag "div" "file-name" [] [Text (blob_name f)];
                Tag "div" "file-size" [] [Text (megabytes (blob_size f)); Text " MB"]]]
        | None =>
            Tag "div" "upload-prompt" [] [
              Tag "div" "upload-icon" [] [Text "☁️"];
              Tag "div" "upload-text" [] [
                Tag "strong" "" [] [Text "Drop files here or click to browse"];
                Tag "p" "" [] [Text "Supports images, documents, PDFs, and more"]]]
        end ] ] ++
    match file u with
    | Some _ =>
        [ Tag "div" "upload-options" [] [
            Tag "div" "form-group" [] [
              Tag "label" "" [] [Text "Tags (comma separated):"];
              Tag "input" "tags-input"
                [AttrS "type" "text"; AttrS "value" (tags u);
                 AttrS "placeholder" "e.g., work, document, important"] []];
            Tag "div" "form-group" [] [
              Tag "label" "checkbox-label" [] [
                Tag "input" "" [AttrS "type" "checkbox"; AttrB "checked" (isPublic u)] [];
                Text "Make file public"]];
            Tag "button" "upload-btn" [AttrB "disabled" (uploading u)] [
              Text (if uploading u then "🔄 Analyzing with AI..."
                    else "🚀 Upload & Analyze")]] ]
    | None => []
    end).

Definition SearchBar_view (st : SearchBar.state) : Html :=
  Tag "div" "search-bar" [] [
    Tag "div" "search-inputs" [] [
      Tag "input" "search-input"
        [AttrS "type" "text"; AttrS "value" (SearchBar.query st);
         AttrS "placeholder" "Search files, content, or AI insights..."] [];
      Tag "input" "tags-filter-input"
        [AttrS "type" "text"; AttrS "value" (SearchBar.searchTags st);
         AttrS "placeholder" "Filter by tags (comma separated)"] []];
    Tag "button" "search-btn" [] [Text "🔍 Search"]].

(** [{file.tags && file.tags.length > 0 && (...)}] *)
Definition file_tags (l : option (list string)) : list Html :=
  match l with
  | Some x =>
      if (0 <? length x)%nat
      then [Tag "div" "file-tags" [] ((fun tag => Tag "span" "tag" [] [Text tag]) <$> x)]
      else []
  | None => []
  end.

Definition FileCard (f : Rec.file_record) : Res Html :=
  match AIAnalysisCard (Rec.ai_analysis f) with
  | Throw e => Throw e
  | Ok card =>
      Ok (Tag "div" "file-card" [] (
        [ Tag "div" "file-header" [] [
            Tag "div" "file-icon-large" [] [Text (getFileIcon (Rec.file_type f))];
            Tag "div" "file-details" [] [
              Tag "h3" "file-name" [] [Text (Rec.original_filename f)];
              Tag "p" "file-meta" [] [
                Text (megabytes (Rec.file_size f)); Text " MB • ";
                Text (formatDate (Rec.upload_timestamp f))]]] ] ++
        file_tags (Rec.tags f) ++
        match card with
        | Some n => [Component n]
        | None => []
        end))
  end.

(** [files.map((file) => <FileCard key={file.id} file={file} />)]: the
    first card that throws aborts the render. *)
Fixpoint FileCards (l : list Rec.file_record) : Res (list Html) :=
  match l with
  | [] => Ok []
  | f :: l' =>
      match FileCard f with
      | Throw e => Throw e
      | Ok card =>
          match FileCards l' with
          | Throw e => Throw e
          | Ok cards => Ok (card :: cards)
          end
      end
  end.

Definition nav_btn (active : bool) (label : list Html) : Html :=
  Tag "button" ("nav-btn " +:+ (if active then "active" else "")) [] label.

(** [activeTab === 'upload'], and so on. *)
Definition is_tab (t t' : Tab) : bool :=
  match t, t' with
  | TabUpload, TabUpload | TabFiles, TabFiles | TabAnalytics, TabAnalytics => true
  | _, _ => false
  end.

(** The text of the three buttons of [<nav className="app-nav">]. *)
Definition tab_label (a : AppState) (t : Tab) : list Html :=
  match t with
  | TabUpload => [Text "📤 Upload"]
  | TabFiles => [Text "📁 Files ("; Number (Z.of_nat (length (files a))); Text ")"]
  | TabAnalytics => [Text "📊 Analytics"]
  end.

(** The content of [<div className="files-section">] below its header:
    [{loading ? ... : files.length === 0 ? ... : ...}] *)
Definition files_body (a : AppState) : Res Html :=
  if loading a then Ok (Tag "div" "loading" [] [Text "Loading files..."])
  else if (length (files a) =? 0)%nat then
    Ok (Tag "div" "empty-state" [] [
      Tag "div" "empty-icon" [] [Text "📂"];
      Tag "h3" "" [] [Text "No files yet"];
      Tag "p" "" [] [Text "Upload your first file to see AI analysis in action!"]])
  else
    match FileCards (files a) with
    | Throw e => Throw e
    | Ok cards => Ok (Tag "div" "files-grid" [] cards)
    end.

(** The children of [<main className="app-main">]. [u] is the state of the
    mounted [FileUploader], [sb] that of the mounted [SearchBar]. *)
Definition main_sections (a : AppState) (u : UploaderState) (sb : SearchBar.state)
    : Res (list Html) :=
  match activeTab a with
  | TabUpload =>
      Ok [Tag "div" "upload-section" [] [
            Tag "h2" "" [] [Text "🚀 Upload & Analyze Files"];
            FileUploader u]]
  | TabFiles =>
      match files_body a with
      | Throw e => Throw e
      | Ok body =>
          Ok [Tag "div" "files-section" [] [
                Tag "div" "files-header" [] [
                  Tag "h2" "" [] [Text "📁 Your Smart Files"];
                  SearchBar_view sb;
                  Tag "button" "reset-btn" [] [Text "Clear Search"]];
                body]]
      end
  | TabAnalytics =>
      Ok match Analytics (analytics a) with
         | Some n => [Component n]
         | None => []
         end
  end.

Definition App (w : World) (sb : SearchBar.state) : Res Html :=
  let a := app w in
  match main_sections a (from_option snd initUploader (uploader w)) sb with
  | Throw e => Throw e
  | Ok sections =>
      Ok (Tag "div" "App" [] [
        Tag "header" "app-header" [] [
          Tag "div" "header-content" [] [
            Tag "div" "logo-section" [] [
              Tag "div" "logo" [] [Text "🧠"];
              Tag "div" "brand-text" [] [
                Tag "h1" "" [] [Text "IntelliShare"];
                Tag "p" "" [] [Text "Smart File Sharing with AI Intelligence"]]]]];
        Tag "nav" "app-nav" [] [
          nav_btn (is_tab (activeTab a) TabUpload) (tab_label a TabUpload);
          nav_btn (is_tab (activeTab a) TabFiles) (tab_label a TabFiles);
          nav_btn (is_tab (activeTab a) TabAnalytics) (tab_label a TabAnalytics)];
        Tag "main" "app-main" [] sections;
        Tag "footer" "app-footer" [] [
          Tag "div" "footer-content" [] [
            Tag "div" "footer-branding" [] [
              Tag "span" "footer-logo" [] [Text "🧠"];
              Tag "span" "footer-text" [] [Text "IntelliShare"]];
            Tag "div" "footer-tagline" [] [Text "Powered by Advanced AI Technology"]]]])
  end.

End Page.
(** ** Class names of the page *)

(** [c] is none of the class names [L]. *)
Definition none_of (L : list string) (c : string) : Prop :=
  forall x, x ∈ L -> String.eqb x c = false.

(** The class names that occur in the output of [FileUploader], of
    [SearchBar], of [AIAnalysisCard] (below its root, and with it), of
    [Analytics] (likewise), of [FileCard] below its root, of the body of the
    files section, of the sections of [<main>], and of the rest of [App]. *)
Definition uploader_classes : list string :=
  [ "file-uploader"; "upload-zone drag-over"; "upload-zone "; ""; "file-selected";
    "file-icon"; "file-info"; "file-name"; "file-size"; "upload-prompt"; "upload-icon";
    "upload-text"; "upload-options"; "form-group"; "tags-input"; "checkbox-label";
    "upload-btn" ].

Definition searchbar_classes : list string :=
  [ "search-bar"; "search-inputs"; "search-input"; "tags-filter-input"; "search-btn" ].

Definition analysis_inner : list string :=
  [ "analysis-header"; "ai-badge"; "model-badge"; "analysis-content";
    "analysis-item"; ""; "tags-container"; "tag" ].

Definition analysis_classes : list string := "ai-analysis-card" :: analysis_inner.

Definition analytics_inner : list string :=
  [ ""; "analytics-grid"; "stat-card"; "stat-number"; "stat-label";
    "file-types-card"; "type-stat"; "top-tags-card"; "popular-tags"; "popular-tag" ].

Definition analytics_classes : list string := "analytics-section" :: analytics_inner.

Definition card_classes : list string :=
  [ "file-header"; "file-icon-large"; "file-details"; "file-name"; "file-meta";
    "file-tags"; "tag" ] ++ analysis_classes.

Definition body_classes : list string :=
  [ "loading"; "empty-state"; "empty-icon"; ""; "files-grid"; "file-card" ] ++ card_classes.

Definition section_classes : list string :=
  [ "upload-section"; "files-section"; "files-header"; "reset-btn" ] ++
  uploader_classes ++ searchbar_classes ++ body_classes ++ analytics_classes.

Definition frame_classes : list string :=
  [ "App"; "app-header"; "header-content"; "logo-section"; "logo"; "brand-text"; "";
    "app-nav"; "app-main"; "app-footer"; "footer-content"; "footer-branding";
    "footer-logo"; "footer-text"; "footer-tagline" ].

(** Equality of tabs is decidable. *)
#[global] Instance Tab_eq_dec : EqDecision Tab.
Proof. solve_decision. Defined.

(** The tabs, in the order of their buttons. *)
Definition tabs : list Tab := [TabUpload; TabFiles; TabAnalytics].

(** The callback of [file.tags.map] in [FileCard]. *)
Definition chip (tag : string) : Html := Tag "span" "tag" [] [Text tag].

(** The page shows a [FileUploader] exactly on the upload tab. *)
Definition displayed (w : World) : Prop :=
  is_Some (uploader w) <-> activeTab (app w) = TabUpload.

(** The state of the [FileUploader] on the page. *)
Definition form (w : World) : UploaderState := from_option snd initUploader (uploader w).

(** ** Worlds and records used in the examples of the page *)

(** A runtime for the examples: every size is shown as [2.00] and a date
    as the text received. *)
Definition sample_format : Formatting :=
  {| megabytes := fun _ => "2.00"; formatDate := fun s => s |}.

(** The page of a world, when rendering does not throw. *)
Definition rendered {fmt : Formatting} (w : World) (sb : SearchBar.state) : Html :=
  match App w sb with
  | Ok page => page
  | Throw _ => Text ""
  end.

(** The upload of [submitted] is in flight and the user has moved to the
    files tab: the form that sent it is unmounted. *)
Definition abandoned : World := default blank (step submitted (ClickTab TabFiles)).

(** A record whose analysis carries its tags as a text. *)
Definition mislabeled : Rec.file_record :=
  {| Rec.id := "3"; Rec.original_filename := "notes.txt";
     Rec.file_type := "text/plain"; Rec.file_size := 10;
     Rec.upload_timestamp := "2025-03-03T10:00:00";
     Rec.tags := None; Rec.ai_analysis := Some {[ "tags" := JStr "work" ]} |}.

(** A record with an empty array of tags and a summary. *)
Definition scan : Rec.file_record :=
  {| Rec.id := "4"; Rec.original_filename := "scan.png";
     Rec.file_type := "image/png"; Rec.file_size := 2097152;
     Rec.upload_timestamp := "2025-03-04T10:00:00";
     Rec.tags := Some []; Rec.ai_analysis := Some {[ "summary" := JStr "a scan" ]} |}.

(** The files tab after a listing that contains [mislabeled]. *)
Definition poisoned : World :=
  default blank
    (run mounted [Deliver 0 (FilesReply (listing ++ [mislabeled])); ClickTab TabFiles]).

(** * Properties *)

(** ** Running one event *)

Ltac js_unfold :=
  unfold handle, handler, resume, handleUpload_resume, non_null, handleUpload_start,
    handleUploadSuccess,
    loadFiles_resume, loadFiles_start, loadAnalytics_resume, loadAnalytics_start,
    handleSearch_resume, handleSearch_start, resetSearch,
    handleFileSelect, handleDrop, handleDragOver, handleDragLeave,
    try_catch, try_catch_finally, bind, ret, throw, await,
    setFiles, setAnalytics, setLoading, setActiveTab,
    setFile, setTags, setIsPublic, setUploading, setDragOver, update_uploader,
    console_error, alert, axios, settle, modify, emit, with_app, with_uploader.

Lemma handle_deliver (w : World) n k r m :
  pending w !! n = Some k ->
  resume k r = Some m ->
  handle w (Deliver n r) = Some (bind (settle n) (fun _ => m) w).
Proof. intros Hp Hr. unfold handle, handler. by rewrite Hp, Hr. Qed.

Lemma fire_handle w ev r wh :
  handle w ev = Some (r, wh) -> fire w ev = Some (r, render_commit wh).
Proof. intros H. unfold fire. by rewrite H. Qed.

Lemma step_handle w ev r wh :
  handle w ev = Some (r, wh) -> step w ev = Some (render_commit wh).
Proof. intros H. unfold step. by rewrite (fire_handle _ _ _ _ H). Qed.

(** The re-render only touches the uploader and the instance counter. *)
Section RenderCommit.

Variable w : World.

Lemma render_commit_app : app (render_commit w) = app w.
Proof.
  destruct w as [a u ? ? ? ?]. unfold render_commit; simpl.
  destruct (activeTab a), u; reflexivity.
Qed.

Lemma render_commit_log : log (render_commit w) = log w.
Proof.
  destruct w as [a u ? ? ? ?]. unfold render_commit; simpl.
  destruct (activeTab a), u; reflexivity.
Qed.

Lemma render_commit_pending : pending (render_commit w) = pending w.
Proof.
  destruct w as [a u ? ? ? ?]. unfold render_commit; simpl.
  destruct (activeTab a), u; reflexivity.
Qed.

Lemma render_commit_next_req : next_req (render_commit w) = next_req w.
Proof.
  destruct w as [a u ? ? ? ?]. unfold render_commit; simpl.
  destruct (activeTab a), u; reflexivity.
Qed.

Lemma render_commit_uploader :
  uploader (render_commit w) =
  match activeTab (app w) with
  | TabUpload => Some (default (mounts w, initUploader) (uploader w))
  | _ => None
  end.
Proof.
  destruct w as [a u ? ? ? ?]. unfold render_commit; simpl.
  destruct (activeTab a), u; reflexivity.
Qed.

End RenderCommit.

(** ** The three ways an upload request ends, at the level of the handler *)

Lemma upload_rejected_handle w n i e :
  pending w !! n = Some (PUpload i) ->
  exists wh, handle w (Deliver n (Failed e)) = Some (Ok tt, wh) /\
    app wh = app w /\
    log wh = log w ++ [ConsoleError "Upload failed:" e;
                       Alert "Upload failed. Please try again."] /\
    uploader wh = match uploader w with
                  | Some (j, u) => Some (j, if Nat.eqb j i then stopped u else u)
                  | None => None
                  end.
Proof.
  intros Hp. eexists. split.
  { erewrite handle_deliver; [|exact Hp|reflexivity]. js_unfold. simpl. reflexivity. }
  destruct w as [a [[j u]|] ms p nr lg]; simpl.
  - destruct (Nat.eqb j i) eqn:E; repeat (simpl; rewrite ?E); rewrite <- ?app_assoc; auto.
  - rewrite <- ?app_assoc; auto.
Qed.

Lemma upload_refused_handle w n i d :
  pending w !! n = Some (PUpload i) ->
  success d = false ->
  exists wh, handle w (Deliver n (UploadReply d)) = Some (Ok tt, wh) /\
    app wh = app w /\
    log wh = log w /\
    uploader wh = match uploader w with
                  | Some (j, u) => Some (j, if Nat.eqb j i then stopped u else u)
                  | None => None
                  end.
Proof.
  intros Hp Hd. eexists. split.
  { erewrite handle_deliver; [|exact Hp|reflexivity]. js_unfold. simpl.
    rewrite Hd. reflexivity. }
  destruct w as [a [[j u]|] ms p nr lg]; simpl.
  - destruct (Nat.eqb j i) eqn:E; repeat (simpl; rewrite ?E); auto.
  - auto.
Qed.

Lemma upload_accepted_handle w n i d :
  pending w !! n = Some (PUpload i) ->
  success d = true ->
  exists wh, handle w (Deliver n (UploadReply d)) = Some (Ok tt, wh) /\
    app wh = {| files := files (app w); analytics := analytics (app w);
                loading := loading (app w); activeTab := TabFiles |} /\
    log wh = log w ++ [Request (next_req w) (GET "/files");
                       Request (S (next_req w)) (GET "/analytics")] /\
    pending wh = <[S (next_req w) := PAnalytics]>
                   (<[next_req w := PFiles]> (delete n (pending w))) /\
    next_req wh = S (S (next_req w)) /\
    uploader wh = match uploader w with
                  | Some (j, u) => Some (j, if Nat.eqb j i then cleared u else u)
                  | None => None
                  end /\
    mounts wh = mounts w.
Proof.
  intros Hp Hd. eexists. split.
  { erewrite handle_deliver; [|exact Hp|reflexivity]. js_unfold. simpl.
    rewrite Hd. simpl. reflexivity. }
  destruct w as [a [[j u]|] ms p nr lg]; simpl.
  - destruct (Nat.eqb j i) eqn:E; repeat (simpl; rewrite ?E); rewrite <- ?app_assoc; auto 10.
  - rewrite <- ?app_assoc; auto 10.
Qed.


Example submitted_payload :
  log submitted = log selected ++
    [Request 2 (POST "/upload" (FormData report "work, urgent" true))].
Proof. vm_compute. reflexivity. Qed.

(** ** The upload coordinator *)




(** C2. When the answer to an upload request reports [success = true],
    the handler resets the file, the tags and the visibility of the
    submitting form to their initial values, [loadFiles] and [loadAnalytics]
    each send exactly one request, and the active tab becomes the files tab.
    After the re-render the upload form is unmounted; opening the upload tab
    again shows a form in its initial state. *)
Theorem upload_success_clears_and_reloads w n i d :
  pending w !! n = Some (PUpload i) ->
  success d = true ->
  exists wh w',
    handle w (Deliver n (UploadReply d)) = Some (Ok tt, wh) /\
    (forall u, uploader w = Some (i, u) -> uploader wh = Some (i, cleared u)) /\
    fire w (Deliver n (UploadReply d)) = Some (Ok tt, w') /\
    activeTab (app w') = TabFiles /\
    uploader w' = None /\
    log w' = log w ++ [Request (next_req w) (GET "/files");
                       Request (S (next_req w)) (GET "/analytics")] /\
    pending w' !! next_req w = Some PFiles /\
    pending w' !! S (next_req w) = Some PAnalytics /\
    exists w'', step w' (ClickTab TabUpload) = Some w'' /\
      uploader w'' = Some (mounts w, initUploader).
Proof.
  intros Hp Hd.
  destruct (upload_accepted_handle w n i d Hp Hd)
    as (wh & Hh & Ha & Hl & Hpe & Hn & Hw & Hm).
  exists wh, (render_commit wh). split; [done|]. split.
  { intros u Hu. by rewrite Hw, Hu, Nat.eqb_refl. }
  split; [by apply fire_handle|].
  rewrite render_commit_app, render_commit_uploader, render_commit_log,
    render_commit_pending, Ha, Hl, Hpe.
  simpl. repeat split; auto.
  - rewrite lookup_insert_ne by lia. apply lookup_insert_eq.
  - apply lookup_insert_eq.
  - eexists. split; [reflexivity|].
    assert (Hr : render_commit wh = with_uploader None wh).
    { unfold render_commit. by rewrite Ha. }
    rewrite Hr. unfold setActiveTab, modify, with_app, with_uploader, render_commit. simpl.
    by rewrite Hm.
Qed.

Lemma upload_success_clears_and_reloads_witness :
  exists wh w',
    handle submitted (Deliver 2 (UploadReply accepted)) = Some (Ok tt, wh) /\
    uploader wh = Some (0, initUploader) /\
    fire submitted (Deliver 2 (UploadReply accepted)) = Some (Ok tt, w') /\
    activeTab (app w') = TabFiles /\
    log w' = log submitted ++ [Request 3 (GET "/files"); Request 4 (GET "/analytics")].
Proof.
  destruct (upload_success_clears_and_reloads submitted 2 0 accepted)
    as (wh & w' & Hh & Hc & Hf & Ht & _ & Hl & _);
    [vm_compute; reflexivity | reflexivity |].
  exists wh, w'. repeat split; try assumption.
  apply (Hc {| file := Some report; tags := "work, urgent"; isPublic := true;
               uploading := true; dragOver := false |}).
  vm_compute; reflexivity.
Defined.






(** C6. With no file selected, [handleUpload] returns at once: the world is
    unchanged (no request, no state update, nothing logged or alerted) and
    nothing is thrown. *)
Theorem no_file_no_upload i c w :
  file c = None -> handleUpload_start i c w = (Ok tt, w).
Proof. intros Hf. unfold handleUpload_start. by rewrite Hf. Qed.

Lemma no_file_no_upload_witness :
  handleUpload_start 0 initUploader mounted = (Ok tt, mounted).
Proof. apply (no_file_no_upload 0 initUploader mounted). reflexivity. Defined.



(** ** Listing, search and analytics *)

(** C4. When the request of [loadFiles], [handleSearch] or [loadAnalytics]
    fails, the continuation completes normally, the file collection and the
    analytics snapshot stay as they were, and the only effect is one
    [console.error] with the error. *)
Theorem fetch_failure_keeps_stale_data w n k e :
  pending w !! n = Some k ->
  k = PFiles \/ k = PSearch \/ k = PAnalytics ->
  exists w', fire w (Deliver n (Failed e)) = Some (Ok tt, w') /\
    files (app w') = files (app w) /\
    analytics (app w') = analytics (app w) /\
    activeTab (app w') = activeTab (app w) /\
    log w' = log w ++ [ConsoleError (catch_message k) e].
Proof.
  intros Hp Hk.
  assert (exists wh, handle w (Deliver n (Failed e)) = Some (Ok tt, wh) /\
            files (app wh) = files (app w) /\
            analytics (app wh) = analytics (app w) /\
            activeTab (app wh) = activeTab (app w) /\
            log wh = log w ++ [ConsoleError (catch_message k) e]) as (wh & Hh & H).
  { destruct Hk as [-> | [-> | ->]];
      (eexists; split;
       [erewrite handle_deliver; [|exact Hp|reflexivity]; js_unfold; simpl; reflexivity
       |simpl; auto]). }
  exists (render_commit wh). split; [by apply fire_handle|].
  by rewrite render_commit_app, render_commit_log.
Qed.

Lemma fetch_failure_keeps_stale_data_witness :
  exists w', fire browsing (Deliver 1 (Failed "Network Error")) = Some (Ok tt, w') /\
    files (app w') = listing /\
    log w' = log browsing ++ [ConsoleError "Failed to load analytics:" "Network Error"].
Proof.
  destruct (fetch_failure_keeps_stale_data browsing 1 PAnalytics "Network Error")
    as (w' & Hf & Hfi & _ & _ & Hl);
    [vm_compute; reflexivity | auto |].
  exists w'. repeat split; assumption.
Defined.

(** An answer with a file array replaces the collection, whichever of
    [loadFiles] and [handleSearch] was waiting for it. *)
Lemma files_delivered w n k l :
  pending w !! n = Some k ->
  k = PFiles \/ k = PSearch ->
  exists w', step w (Deliver n (FilesReply l)) = Some w' /\
    app w' = {| files := l; analytics := analytics (app w);
                loading := match k with PFiles => false | _ => loading (app w) end;
                activeTab := activeTab (app w) |} /\
    pending w' = delete n (pending w) /\
    next_req w' = next_req w /\
    log w' = log w.
Proof.
  intros Hp Hk.
  assert (exists wh, handle w (Deliver n (FilesReply l)) = Some (Ok tt, wh) /\
    app wh = {| files := l; analytics := analytics (app w);
                loading := match k with PFiles => false | _ => loading (app w) end;
                activeTab := activeTab (app w) |} /\
    pending wh = delete n (pending w) /\
    next_req wh = next_req w /\
    log wh = log w) as (wh & Hh & Ha & Hpe & Hn & Hl).
  { destruct Hk as [-> | ->];
      (eexists; split;
       [erewrite handle_deliver; [|exact Hp|reflexivity]; js_unfold; simpl; reflexivity
       |simpl; auto]). }
  exists (render_commit wh). split; [by eapply step_handle|].
  by rewrite render_commit_app, render_commit_pending, render_commit_next_req,
    render_commit_log.
Qed.

(** An event whose handler is a single axios call. *)
Lemma request_issued w ev r k :
  handler w ev = Some (axios r k) ->
  exists w', step w ev = Some w' /\
    app w' = app w /\
    pending w' = <[next_req w := k]> (pending w) /\
    next_req w' = S (next_req w) /\
    log w' = log w ++ [Request (next_req w) r].
Proof.
  intros Hh. exists (render_commit (snd (axios r k w))). split.
  { unfold step, fire, handle. rewrite Hh. reflexivity. }
  by rewrite render_commit_app, render_commit_pending, render_commit_next_req,
    render_commit_log.
Qed.

Lemma search_issued w p :
  activeTab (app w) = TabFiles ->
  handler w (SubmitSearch p) = Some (axios (POST "/search" (Json p)) PSearch).
Proof. intros Ht. simpl. by rewrite Ht. Qed.

Lemma reset_issued w :
  activeTab (app w) = TabFiles ->
  handler w ClickReset = Some (axios (GET "/files") PFiles).
Proof. intros Ht. simpl. by rewrite Ht. Qed.

(** C5 (amended). The reset button runs [loadFiles]: it sends a fresh
    [GET /files]. After a search followed by a reset, when the answer to the
    reset arrives after the answer to the search, the collection is exactly
    the listing carried by the answer to the reset, whatever the search
    returned; this holds whether the reset is clicked after the search
    answer or before it. *)
Theorem reset_reloads_listing w p found all :
  activeTab (app w) = TabFiles ->
  handler w ClickReset = Some loadFiles_start /\
  (exists w', run w [SubmitSearch p; Deliver (next_req w) (FilesReply found);
                     ClickReset; Deliver (S (next_req w)) (FilesReply all)] = Some w' /\
     files (app w') = all /\
     log w' = log w ++ [Request (next_req w) (POST "/search" (Json p));
                        Request (S (next_req w)) (GET "/files")]) /\
  (exists w', run w [SubmitSearch p; ClickReset;
                     Deliver (next_req w) (FilesReply found);
                     Deliver (S (next_req w)) (FilesReply all)] = Some w' /\
     files (app w') = all).
Proof.
  intros Ht. split; [apply reset_issued, Ht|]. split.
  - destruct (request_issued w _ _ _ (search_issued w p Ht))
      as (w1 & S1 & A1 & P1 & N1 & L1).
    destruct (files_delivered w1 (next_req w) PSearch found)
      as (w2 & S2 & A2 & P2 & N2 & L2);
      [rewrite P1; apply lookup_insert_eq | auto |].
    assert (T2 : activeTab (app w2) = TabFiles) by (by rewrite A2, A1).
    destruct (request_issued w2 _ _ _ (reset_issued w2 T2))
      as (w3 & S3 & A3 & P3 & N3 & L3).
    destruct (files_delivered w3 (S (next_req w)) PFiles all)
      as (w4 & S4 & A4 & P4 & N4 & L4);
      [rewrite P3, N2, N1; apply lookup_insert_eq | auto |].
    exists w4. simpl. rewrite S1, S2, S3, S4. split; [done|]. rewrite A4. split; [done|].
    by rewrite L4, L3, L2, L1, N2, N1, <- app_assoc.
  - destruct (request_issued w _ _ _ (search_issued w p Ht))
      as (w1 & S1 & A1 & P1 & N1 & L1).
    assert (T1 : activeTab (app w1) = TabFiles) by (by rewrite A1).
    destruct (request_issued w1 _ _ _ (reset_issued w1 T1))
      as (w2 & S2 & A2 & P2 & N2 & L2).
    destruct (files_delivered w2 (next_req w) PSearch found)
      as (w3 & S3 & A3 & P3 & N3 & L3);
      [rewrite P2, P1, N1; rewrite lookup_insert_ne by lia; apply lookup_insert_eq
      | auto |].
    destruct (files_delivered w3 (S (next_req w)) PFiles all)
      as (w4 & S4 & A4 & P4 & N4 & L4);
      [rewrite P3, P2, N1; rewrite lookup_delete_ne by lia; apply lookup_insert_eq
      | auto |].
    exists w4. simpl. rewrite S1, S2, S3, S4. split; [done|]. by rewrite A4.
Qed.

Lemma reset_reloads_listing_witness :
  exists w', run browsing [SubmitSearch invoice; Deliver 2 (FilesReply (take 1 listing));
                           ClickReset; Deliver 3 (FilesReply listing)] = Some w' /\
    files (app w') = listing.
Proof.
  destruct (reset_reloads_listing browsing invoice (take 1 listing) listing)
    as (_ & (w' & Hr & Hf & _) & _);
    [vm_compute; reflexivity |].
  exists w'. split; assumption.
Defined.

(** C5 as stated fails. The collection shown is the one loaded last. In the
    sample session the listing is displayed; a search is sent and the reset
    button is clicked at once. First: the backend answers the reset with the
    same listing and then the search with its single hit, and the search
    result stays on display. Second: the request of the reset fails, and the
    search result stays on display as well. *)
Lemma reset_after_search_counterexample :
  exists late dropped,
    files (app browsing) = listing /\
    run browsing [SubmitSearch invoice; ClickReset;
                  Deliver 3 (FilesReply listing);
                  Deliver 2 (FilesReply (take 1 listing))] = Some late /\
    files (app late) = take 1 listing /\
    files (app late) <> listing /\
    run browsing [SubmitSearch invoice; Deliver 2 (FilesReply (take 1 listing));
                  ClickReset; Deliver 3 (Failed "Network Error")] = Some dropped /\
    files (app dropped) = take 1 listing.
Proof.
  do 2 eexists. repeat split; try (vm_compute; reflexivity).
  vm_compute; discriminate.
Qed.

(** ** Tabs *)

Lemma tab_click w t :
  fire w (ClickTab t) =
    Some (Ok tt, render_commit (with_app (fun a =>
      {| files := files a; analytics := analytics a;
         loading := loading a; activeTab := t |}) w)).
Proof. reflexivity. Qed.

(** Every handler either keeps the active tab, or logs nothing, or is the
    continuation of an upload that succeeded. *)
Lemma handle_tab_or_fetch w ev r wh :
  handle w ev = Some (r, wh) ->
  activeTab (app wh) = activeTab (app w) \/
  log wh = log w \/
  exists n d, ev = Deliver n (UploadReply d) /\ success d = true /\
              activeTab (app wh) = TabFiles.
Proof.
  unfold handle. destruct (handler w ev) as [m|] eqn:Hm; [|done].
  intros [= Hr]. destruct ev; simpl in Hm.
  1-7: destruct (uploader w) as [[j u]|] eqn:Hu; [|done].
  5-7: destruct (file u) eqn:Hf; [|done].
  7: destruct (uploading u) eqn:Hup; [done|].
  1-7: injection Hm as <-; left; revert Hr;
       js_unfold; simpl; rewrite ?Hf, ?Hu; simpl; rewrite ?Hu, ?Nat.eqb_refl; simpl.
  1,3-7: by intros [= _ <-].
  - destruct f as [f|]; simpl; [unfold handleFileSelect; js_unfold; simpl|];
      rewrite ?Nat.eqb_refl; by intros [= _ <-].
  - assert (m = setActiveTab t) as -> by congruence. right; left.
    unfold setActiveTab, modify in Hr. by injection Hr as _ <-.
  - destruct (activeTab (app w)) eqn:Ht; try done.
    assert (m = handleSearch_start p) as -> by congruence.
    left. unfold handleSearch_start, axios, modify in Hr. injection Hr as _ <-. by simpl.
  - destruct (activeTab (app w)) eqn:Ht; try done.
    assert (m = resetSearch) as -> by congruence.
    left. unfold resetSearch, loadFiles_start, axios, modify in Hr.
    injection Hr as _ <-. by simpl.
  - destruct (pending w !! n) as [k|]; [|done].
    destruct (resume k r0) as [m'|] eqn:Hres; [|done].
    assert (m = bind (settle n) (fun _ => m')) as -> by congruence.
    destruct k, r0; simpl in Hres; try done; injection Hres as <-.
    all: revert Hr; js_unfold; simpl.
    all: try (destruct (success d) eqn:Hd; simpl).
    all: try (destruct (uploader w) as [[j u]|] eqn:Hu; simpl;
              [destruct (Nat.eqb j inst) eqn:E; repeat (simpl; rewrite ?E)|]).
    all: intros [= _ <-]; simpl; eauto 10.
Qed.

(** C9 (amended). A click on a tab completes normally, sets the active tab
    and changes nothing else in the state of [App]: the file collection, the
    snapshot and the loading flag are kept, no request is sent and none is
    settled. The upload form keeps its state only when the upload tab is
    clicked while it is displayed; a click on another tab unmounts it, and a
    later click on the upload tab mounts a form in its initial state.
    Moreover, the only event that both changes the active tab and sends
    requests is the arrival of a successful upload answer, which makes the
    files tab active. *)
Theorem tab_switch_frame :
  (forall w t, exists w',
     fire w (ClickTab t) = Some (Ok tt, w') /\
     app w' = {| files := files (app w); analytics := analytics (app w);
                 loading := loading (app w); activeTab := t |} /\
     pending w' = pending w /\
     next_req w' = next_req w /\
     log w' = log w /\
     uploader w' = match t with
                   | TabUpload => Some (default (mounts w, initUploader) (uploader w))
                   | _ => None
                   end) /\
  (forall w ev r w',
     fire w ev = Some (r, w') ->
     activeTab (app w') <> activeTab (app w) ->
     log w' <> log w ->
     exists n d, ev = Deliver n (UploadReply d) /\ success d = true /\
                 activeTab (app w') = TabFiles).
Proof.
  split.
  - intros w t. eexists. split; [apply tab_click|].
    rewrite render_commit_app, render_commit_pending, render_commit_next_req,
      render_commit_log, render_commit_uploader. simpl. repeat split.
  - intros w ev r w'. unfold fire.
    destruct (handle w ev) as [[r' wh]|] eqn:Hh; [|done].
    intros [= -> <-]. rewrite render_commit_app, render_commit_log. intros Ht Hl.
    destruct (handle_tab_or_fetch _ _ _ _ Hh) as [H | [H | H]]; done.
Qed.

Lemma tab_switch_frame_witness :
  exists n d, Deliver 2 (UploadReply accepted) = Deliver n (UploadReply d) /\
    success d = true /\
    activeTab (app (default blank (step submitted (Deliver 2 (UploadReply accepted)))))
      = TabFiles.
Proof.
  apply (proj2 tab_switch_frame submitted (Deliver 2 (UploadReply accepted)) (Ok tt)
           (default blank (step submitted (Deliver 2 (UploadReply accepted))))).
  - vm_compute; reflexivity.
  - vm_compute; discriminate.
  - vm_compute. intros H. apply (f_equal length) in H. discriminate.
Defined.

(** C9 as stated fails. In the sample session a file is selected; clicking
    the files tab unmounts the upload form, and clicking the upload tab
    again shows an empty form: the selection, the tags and the visibility
    are gone, although no upload took place. *)
Lemma tab_switch_discards_selection_counterexample :
  exists away back,
    uploader selected =
      Some (0, {| file := Some report; tags := "work, urgent"; isPublic := true;
                  uploading := false; dragOver := false |}) /\
    step selected (ClickTab TabFiles) = Some away /\
    uploader away = None /\
    step away (ClickTab TabUpload) = Some back /\
    uploader back = Some (1, initUploader) /\
    uploader back <> uploader selected.
Proof.
  do 2 eexists. repeat split; try (vm_compute; reflexivity).
  vm_compute; discriminate.
Qed.

(** ** Views *)

Section Select.

Variable c : string.

Lemma select_El tag cls ch :
  select c (El tag cls ch) =
  (if String.eqb cls c then [El tag cls ch] else []) ++ select_list c ch.
Proof. reflexivity. Qed.

Lemma select_Txt s : select c (Txt s) = [].
Proof. reflexivity. Qed.

Lemma select_Num z : select c (Num z) = [].
Proof. reflexivity. Qed.

Lemma select_list_nil : select_list c [] = [].
Proof. reflexivity. Qed.

Lemma select_list_cons x l : select_list c (x :: l) = select c x ++ select_list c l.
Proof. reflexivity. Qed.

Lemma select_list_app l1 l2 :
  select_list c (l1 ++ l2) = select_list c l1 ++ select_list c l2.
Proof. unfold select_list. by rewrite fmap_app, concat_app. Qed.

End Select.

Lemma select_type_stats l : select_list "type-stat" (type_stat <$> l) = type_stat <$> l.
Proof.
  induction l as [|b l IH]; [done|].
  rewrite fmap_cons, select_list_cons, IH. reflexivity.
Qed.

Lemma select_popular_tags l :
  select_list "popular-tag" (popular_tag <$> l) = popular_tag <$> l.
Proof.
  induction l as [|b l IH]; [done|].
  rewrite fmap_cons, select_list_cons, IH. reflexivity.
Qed.

Lemma select_type_stats_none l : select_list "popular-tag" (type_stat <$> l) = [].
Proof.
  induction l as [|b l IH]; [done|].
  rewrite fmap_cons, select_list_cons, IH. reflexivity.
Qed.

Lemma select_popular_tags_none l : select_list "type-stat" (popular_tag <$> l) = [].
Proof.
  induction l as [|b l IH]; [done|].
  rewrite fmap_cons, select_list_cons, IH. reflexivity.
Qed.

Create Rewrite HintDb sel.
#[local] Hint Rewrite select_El select_Txt select_Num select_list_nil select_list_cons
  select_list_app app_nil_l app_nil_r
  select_type_stats select_popular_tags select_type_stats_none select_popular_tags_none
  : sel.

Lemma nonempty_cases {A} (l : option (list A)) (jsx : list A -> Node) :
  (nonempty l jsx = [] /\ default [] l = []) \/
  nonempty l jsx = [jsx (default [] l)].
Proof. destruct l as [[|x l]|]; simpl; auto. Qed.

(** C7. For every snapshot, the rendered analytics view contains one
    [type-stat] row for each of the first 5 entries of
    [file_type_distribution] and one [popular-tag] for each of the first 10
    entries of [top_tags], in order, and no others: their numbers are
    [min 5] and [min 10] of the lengths held in the snapshot. *)
Theorem analytics_shows_bounded_prefixes (a : Stats.analytics) :
  exists view, Analytics (Some a) = Some view /\
    select "type-stat" view =
      type_stat <$> take 5 (default [] (Stats.file_type_distribution a)) /\
    select "popular-tag" view =
      popular_tag <$> take 10 (default [] (Stats.top_tags a)) /\
    length (select "type-stat" view) =
      min 5 (length (default [] (Stats.file_type_distribution a))) /\
    length (select "popular-tag" view) =
      min 10 (length (default [] (Stats.top_tags a))).
Proof.
  eexists. split; [reflexivity|].
  match goal with |- ?P /\ ?Q /\ _ => assert (P /\ Q) as [H1 H2] end.
  { unfold slice0. cbn [List.concat app].
    destruct (nonempty_cases (Stats.file_type_distribution a)
                (fun d => El "div" "file-types-card"
                   (El "h3" "" [Txt "File Types"] :: (type_stat <$> take 5 d))))
      as [[-> ->] | ->];
    destruct (nonempty_cases (Stats.top_tags a)
                (fun t => El "div" "top-tags-card" [
                   El "h3" "" [Txt "Popular Tags"];
                   El "div" "popular-tags" (popular_tag <$> take 10 t)]))
      as [[-> ->] | ->].
    all: repeat (progress (cbn [app List.concat String.eqb Ascii.eqb Bool.eqb];
                           autorewrite with sel)); split; reflexivity. }
  rewrite H1, H2, !length_fmap, !length_take. done.
Qed.

Example analytics_eight_and_fifteen :
  exists view, Analytics (Some busy_snapshot) = Some view /\
    length (select "type-stat" view) = 5 /\
    length (select "popular-tag" view) = 10.
Proof. eexists. repeat split; vm_compute; reflexivity. Qed.

(** C8. A file record without analysis renders no analysis card. An
    analysis object whose only key is the model (the source calls the field
    [ai_model]) renders the card header, whose model badge shows the model,
    over an empty content: no labelled item appears. *)
Theorem analysis_card_absent_or_model_only :
  (forall f : Rec.file_record, Rec.ai_analysis f = None ->
     AIAnalysisCard (Rec.ai_analysis f) = Ok None) /\
  (forall x : string,
     AIAnalysisCard (Some {[ "ai_model" := JStr x ]}) =
       Ok (Some (El "div" "ai-analysis-card" [
         El "div" "analysis-header" [
           El "span" "ai-badge" [Txt "🤖 AI Analysis"];
           El "span" "model-badge" [Txt x]];
         El "div" "analysis-content" []]))).
Proof.
  split.
  - intros f ->. reflexivity.
  - intros x. unfold AIAnalysisCard.
    rewrite map_size_singleton. simpl.
    rewrite lookup_singleton_eq.
    rewrite !lookup_singleton_ne by done. reflexivity.
Qed.

Lemma analysis_card_absent_or_model_only_witness :
  AIAnalysisCard
    (Rec.ai_analysis
       {| Rec.id := "1"; Rec.original_filename := "invoice-march.pdf";
          Rec.file_type := "application/pdf"; Rec.file_size := 2097152;
          Rec.upload_timestamp := "2025-03-01T10:00:00";
          Rec.tags := Some ["work"]; Rec.ai_analysis := None |}) = Ok None.
Proof. apply (proj1 analysis_card_absent_or_model_only). reflexivity. Defined.

(** * Further properties *)

(** ** Splitting and trimming *)

Lemma split_cons sep s : exists piece pieces, split sep s = piece :: pieces.
Proof.
  induction s as [|c s IH]; simpl; [eauto|].
  destruct (Ascii.eqb c sep); [eauto|].
  destruct IH as (p & ps & ->). eauto.
Qed.

Lemma length_split sep s : length (split sep s) = S (occurrences sep s).
Proof.
  induction s as [|c s IH]; simpl; [done|].
  destruct (Ascii.eqb c sep); simpl; [by rewrite IH|].
  destruct (split_cons sep s) as (p & ps & E). rewrite E in IH |- *. done.
Qed.

(** Joining the pieces with the separator gives the text back. *)
Lemma concat_split sep s : String.concat (String sep "") (split sep s) = s.
Proof.
  induction s as [|c s IH]; simpl; [done|].
  destruct (split_cons sep s) as (p & ps & E). rewrite E in IH |- *.
  destruct (Ascii.eqb_spec c sep) as [->|Hne].
  - change (String.concat (String sep "") ("" :: p :: ps))
      with (String sep (String.concat (String sep "") (p :: ps))).
    by rewrite IH.
  - rewrite <- IH. by destruct ps.
Qed.

Lemma split_pieces_free sep s :
  Forall (fun piece => occurrences sep piece = 0) (split sep s).
Proof.
  induction s as [|c s IH]; simpl; [by repeat constructor|].
  destruct (Ascii.eqb c sep) eqn:E; [by constructor|].
  destruct (split_cons sep s) as (p & ps & Es). rewrite Es in IH |- *.
  inversion IH; subst. constructor; [|done]. simpl. by rewrite E.
Qed.

Lemma split_free sep s : occurrences sep s = 0 -> split sep s = [s].
Proof.
  induction s as [|c s IH]; simpl; [done|].
  destruct (Ascii.eqb c sep); simpl; [done|]. intros H. by rewrite (IH H).
Qed.

Lemma occurrences_bytes c s : occurrences c s = 0 <-> c ∉ bytes s.
Proof.
  unfold bytes. induction s as [|a s IH]; simpl.
  - split; [intros _ H; by apply elem_of_nil in H|done].
  - rewrite not_elem_of_cons, <- IH. destruct (Ascii.eqb_spec a c) as [->|Hne]; simpl.
    + split; [done|]. by intros [? _].
    + split; [intros H; split; [congruence|done]|by intros [_ ?]].
Qed.

Section Strip.

Variable ws : list (list ascii).

Lemma strip_prefix_Some p l r : strip_prefix p l = Some r <-> l = p ++ r.
Proof.
  revert l. induction p as [|a p IH]; intros l; simpl.
  - split; [by intros [= ->]|by intros ->].
  - destruct l as [|b l]; [split; [done|by intros ?]|].
    destruct (Ascii.eqb_spec a b) as [->|Hne].
    + rewrite IH. split; [by intros ->|by intros [= ->]].
    + split; [done|]. intros [= ? ?]. done.
Qed.

Lemma strip_one_Some l r : strip_one ws l = Some r -> exists p, p ∈ ws /\ l = p ++ r.
Proof.
  induction ws as [|p ws' IH]; simpl; [done|].
  destruct (strip_prefix p l) as [r'|] eqn:E.
  - intros [= ->]. apply strip_prefix_Some in E. exists p. split; [left|done].
  - intros H. destruct (IH H) as (q & Hq & ->). exists q. split; [by right|done].
Qed.

Lemma strip_one_None l : strip_one ws l = None <-> forall p, p ∈ ws -> ¬ p `prefix_of` l.
Proof.
  induction ws as [|p ws' IH]; simpl.
  - split; [intros _ p Hp; by apply elem_of_nil in Hp|done].
  - destruct (strip_prefix p l) as [r|] eqn:E.
    + split; [done|]. intros H. exfalso. apply (H p); [left|].
      apply strip_prefix_Some in E. by exists r.
    + rewrite IH. split.
      * intros H q [->|Hq]%elem_of_cons; [|by apply H].
        intros [r Hr]. apply strip_prefix_Some in Hr. congruence.
      * intros H q Hq. apply H. by right.
Qed.

Lemma strip_all_suffix fuel l : strip_all ws fuel l `suffix_of` l.
Proof.
  revert l. induction fuel as [|n IH]; intros l; simpl; [done|].
  destruct (strip_one ws l) as [r|] eqn:E; [|done].
  destruct (strip_one_Some _ _ E) as (p & _ & ->).
  etrans; [apply IH|]. by apply suffix_app_r.
Qed.

(** The length of the text is fuel enough: nothing is left to strip. *)
Lemma strip_all_done fuel l :
  Forall (fun p => p <> []) ws ->
  length l <= fuel ->
  strip_one ws (strip_all ws fuel l) = None.
Proof.
  intros Hws. revert l. induction fuel as [|n IH]; intros l Hl; simpl.
  - destruct l; [|simpl in Hl; lia].
    apply strip_one_None. intros p Hp [r Hr].
    rewrite Forall_forall in Hws. apply (Hws p Hp).
    by destruct p.
  - destruct (strip_one ws l) as [r|] eqn:E; [|done].
    apply IH. destruct (strip_one_Some _ _ E) as (p & Hp & ->).
    rewrite Forall_forall in Hws. specialize (Hws p Hp).
    rewrite length_app in Hl. destruct p; [done|simpl in Hl; lia].
Qed.

Lemma strip_all_fixed fuel l : strip_one ws l = None -> strip_all ws fuel l = l.
Proof. intros H. destruct fuel; simpl; [done|]. by rewrite H. Qed.

End Strip.

Lemma white_space_nonempty : Forall (fun p => p <> []) white_space.
Proof. unfold white_space. repeat constructor; discriminate. Qed.

Lemma trimStart_bytes_spec l :
  trimStart_bytes l `suffix_of` l /\
  forall p, p ∈ white_space -> ¬ p `prefix_of` trimStart_bytes l.
Proof.
  split; [apply strip_all_suffix|].
  apply strip_one_None, strip_all_done; [apply white_space_nonempty|done].
Qed.

Lemma trimEnd_bytes_spec l :
  trimEnd_bytes l `prefix_of` l /\
  forall p, p ∈ white_space -> ¬ p `suffix_of` trimEnd_bytes l.
Proof.
  unfold trimEnd_bytes. split.
  - pose proof (strip_all_suffix (reverse <$> white_space) (length l) (reverse l)) as H.
    apply suffix_prefix_reverse in H. by rewrite reverse_involutive in H.
  - intros p Hp Hs.
    assert (H : strip_one (reverse <$> white_space)
                  (strip_all (reverse <$> white_space) (length l) (reverse l)) = None).
    { apply strip_all_done; [|by rewrite length_reverse].
      apply Forall_fmap. eapply Forall_impl; [apply white_space_nonempty|].
      intros q Hq Hr. apply Hq. simpl in Hr.
      apply (f_equal reverse) in Hr. by rewrite reverse_involutive in Hr. }
    rewrite strip_one_None in H. apply (H (reverse p)).
    + by apply list_elem_of_fmap_2.
    + apply suffix_prefix_reverse in Hs. by rewrite reverse_involutive in Hs.
Qed.

(** [trim] keeps a contiguous part of the text, which neither starts nor
    ends with white space. *)
Lemma trim_spec s :
  (exists before after, bytes s = before ++ bytes (trim s) ++ after) /\
  forall p, p ∈ white_space ->
    ¬ p `prefix_of` bytes (trim s) /\ ¬ p `suffix_of` bytes (trim s).
Proof.
  unfold trim, bytes. rewrite String.list_ascii_of_string_of_list_ascii.
  set (l := String.list_ascii_of_string s).
  destruct (trimStart_bytes_spec l) as [[a Hs] Hp].
  destruct (trimEnd_bytes_spec (trimStart_bytes l)) as [[b He] Hq].
  split.
  - exists a, b. by rewrite <- He.
  - intros p Hin. split; [|by apply Hq].
    intros Hpre. apply (Hp p Hin). etrans; [done|]. by exists b.
Qed.

(** A text without white space at either end is left alone. *)
Lemma trim_fixed s :
  (forall p, p ∈ white_space -> ¬ p `prefix_of` bytes s /\ ¬ p `suffix_of` bytes s) ->
  trim s = s.
Proof.
  intros H. unfold trim, trimStart_bytes, trimEnd_bytes.
  set (l := bytes s) in *.
  rewrite (strip_all_fixed white_space _ l).
  2: { apply strip_one_None. intros p Hp. by apply H. }
  rewrite strip_all_fixed.
  - rewrite reverse_involutive. apply String.string_of_list_ascii_of_string.
  - apply strip_one_None. intros q (p & -> & Hp)%list_elem_of_fmap Hpre.
    apply (H p Hp). apply suffix_prefix_reverse. done.
Qed.

Lemma trim_idempotent s : trim (trim s) = trim s.
Proof. apply trim_fixed. apply trim_spec. Qed.

(** ** SearchBar *)

(** X1. When the tag filter is not empty, [handleSearch] sends one tag per
    comma-separated piece of the text (one more than there are commas); no
    tag contains a comma, and every tag is trimmed: it neither starts nor
    ends with white space, and trimming it again changes nothing. *)
Theorem search_tags_trimmed st tags :
  search_tags (SearchBar.handleSearch st) = Some tags ->
  length tags = S (occurrences "," (SearchBar.searchTags st)) /\
  forall t, t ∈ tags ->
    occurrences "," t = 0 /\
    trim t = t /\
    forall p, p ∈ white_space -> ¬ p `prefix_of` bytes t /\ ¬ p `suffix_of` bytes t.
Proof.
  unfold SearchBar.handleSearch; simpl.
  destruct (String.eqb _ ""); [done|]. intros [= <-].
  split; [by rewrite length_fmap, length_split|].
  intros t (piece & -> & Hin)%list_elem_of_fmap.
  destruct (trim_spec piece) as [(a & b & Hab) Hws].
  split; [|split; [|done]].
  - apply occurrences_bytes. intros Hc.
    pose proof (split_pieces_free "," (SearchBar.searchTags st)) as Hfree.
    rewrite Forall_forall in Hfree. specialize (Hfree _ Hin).
    apply occurrences_bytes in Hfree. apply Hfree. rewrite Hab.
    apply elem_of_app. right. apply elem_of_app. by left.
  - apply trim_idempotent.
Qed.

Lemma search_tags_trimmed_witness :
  search_tags (SearchBar.handleSearch
                 {| SearchBar.query := "invoice";
                    SearchBar.searchTags := " work , urgent,," |})
    = Some ["work"; "urgent"; ""; ""] /\
  length ["work"; "urgent"; ""; ""] = 4.
Proof.
  split; [reflexivity|].
  apply (search_tags_trimmed
           {| SearchBar.query := "invoice"; SearchBar.searchTags := " work , urgent,," |}).
  reflexivity.
Defined.

(** X2. [handleSearch] sends [tags: null] exactly when the tag filter is the
    empty text. A non-empty filter without a comma is sent as a single tag,
    its trimmed text: a filter of blanks is sent as one empty tag, not as
    [null]. The query text is passed on as typed. *)
Theorem search_tags_null_iff_empty st :
  (search_tags (SearchBar.handleSearch st) = None <-> SearchBar.searchTags st = "") /\
  (SearchBar.searchTags st <> "" ->
   occurrences "," (SearchBar.searchTags st) = 0 ->
   search_tags (SearchBar.handleSearch st) = Some [trim (SearchBar.searchTags st)]) /\
  query (SearchBar.handleSearch st) = SearchBar.query st.
Proof.
  unfold SearchBar.handleSearch; simpl.
  destruct (String.eqb_spec (SearchBar.searchTags st) "") as [E|E].
  - repeat split; done.
  - repeat split; try done. intros _ H. by rewrite (split_free _ _ H).
Qed.

Lemma search_tags_null_iff_empty_witness :
  search_tags (SearchBar.handleSearch {| SearchBar.query := "q"; SearchBar.searchTags := "  " |})
    = Some [""].
Proof.
  apply (proj1 (proj2 (search_tags_null_iff_empty
           {| SearchBar.query := "q"; SearchBar.searchTags := "  " |}))); [discriminate|reflexivity].
Defined.

(** ** FileCard: icons *)

Lemma prefix_append p s : String.prefix p (p +:+ s) = true.
Proof.
  induction p as [|a p IH]; simpl; [by destruct s|].
  by destruct (ascii_dec a a).
Qed.

Lemma prefix_true p s : String.prefix p s = true -> exists rest, s = p +:+ rest.
Proof.
  revert s. induction p as [|a p IH]; intros s; simpl.
  - intros _. by exists s.
  - destruct s as [|b s]; [done|]. simpl.
    destruct (ascii_dec a b) as [->|]; [|done].
    intros H. destruct (IH _ H) as [rest ->]. by exists rest.
Qed.

Lemma includes_nil sub : includes sub "" = String.prefix sub "".
Proof. unfold includes. apply orb_false_r. Qed.

Lemma includes_cons sub c s :
  includes sub (String c s) = String.prefix sub (String c s) || includes sub s.
Proof. reflexivity. Qed.

(** [includes sub s] holds exactly when [sub] occurs somewhere in [s]. *)
Lemma includes_true sub s :
  includes sub s = true <-> exists before after, s = before +:+ sub +:+ after.
Proof.
  split.
  - induction s as [|c s IH].
    + rewrite includes_nil. intros H. destruct (prefix_true _ _ H) as [rest E].
      by exists "", rest.
    + rewrite includes_cons. intros [H|H]%orb_true_iff.
      * destruct (prefix_true _ _ H) as [rest E]. by exists "", rest.
      * destruct (IH H) as (a & b & ->). by exists (String c a), b.
  - intros (a & b & ->). induction a as [|c a IH].
    + change ("" +:+ sub +:+ b) with (sub +:+ b).
      destruct (sub +:+ b) as [|c r] eqn:E.
      * rewrite includes_nil, <- E. apply prefix_append.
      * rewrite includes_cons, <- E, prefix_append. done.
    + change (String c a +:+ sub +:+ b) with (String c (a +:+ sub +:+ b)).
      rewrite includes_cons, IH. apply orb_true_r.
Qed.

(** X3. [getFileIcon] tests in a fixed order. Every type that starts with
    [image/] gets the picture icon, whatever follows. A type that does not,
    and mentions [pdf] anywhere, gets the document icon, also when it starts
    with [text/] or mentions [video] or [audio]. The folder icon is the
    answer exactly when no test applies. *)
Theorem file_icon_precedence :
  (forall rest, getFileIcon ("image/" +:+ rest) = "🖼️") /\
  (forall before after,
     startsWith "image/" (before +:+ "pdf" +:+ after) = false ->
     getFileIcon (before +:+ "pdf" +:+ after) = "📄") /\
  (forall fileType,
     getFileIcon fileType = "📁" <->
     startsWith "image/" fileType = false /\
     startsWith "text/" fileType = false /\
     forall mark, mark ∈ ["pdf"; "video"; "audio"] ->
       ¬ exists before after, fileType = before +:+ mark +:+ after).
Proof.
  split; [|split].
  - intros rest. unfold getFileIcon, startsWith. by rewrite prefix_append.
  - intros a b H. unfold getFileIcon. rewrite H.
    assert (includes "pdf" (a +:+ "pdf" +:+ b) = true) as -> by (apply includes_true; eauto).
    done.
  - intros t. unfold getFileIcon.
    destruct (startsWith "image/" t) eqn:E1; [split; [done|by intros [? _]]|].
    destruct (includes "pdf" t) eqn:E2.
    { split; [done|]. intros (_ & _ & H). exfalso.
      apply (H "pdf"); [apply list_elem_of_here|]. by apply includes_true. }
    destruct (startsWith "text/" t) eqn:E3; [split; [done|by intros (? & ? & _)]|].
    destruct (includes "video" t) eqn:E4.
    { split; [done|]. intros (_ & _ & H). exfalso.
      apply (H "video"); [apply list_elem_of_further, list_elem_of_here|]. by apply includes_true. }
    destruct (includes "audio" t) eqn:E5.
    { split; [done|]. intros (_ & _ & H). exfalso.
      apply (H "audio"); [do 2 apply list_elem_of_further; apply list_elem_of_here|]. by apply includes_true. }
    split; [|done]. intros _. repeat split.
    intros mark Hm Hex. apply includes_true in Hex.
    repeat (apply elem_of_cons in Hm as [->|Hm]; [congruence|]).
    by apply elem_of_nil in Hm.
Qed.

Lemma file_icon_precedence_witness :
  getFileIcon "text/x-pdf-notes" = "📄".
Proof.
  apply (proj1 (proj2 file_icon_precedence) "text/x-" "-notes"). reflexivity.
Defined.

(** ** Events, one at a time *)

(** Case analysis on one handled event: every goal is left with the world
    after the handler written out. *)
Ltac handle_cases w ev :=
  let m := fresh "m" in let Hm := fresh "Hm" in let Hrun := fresh "Hrun" in
  let a := fresh "a" in let up := fresh "up" in let ms := fresh "ms" in
  let p := fresh "p" in let nr := fresh "nr" in let lg := fresh "lg" in
  let j := fresh "j" in let u := fresh "u" in
  let Hfile := fresh "Hfile" in let Hup := fresh "Hup" in
  unfold handle;
  destruct (handler w ev) as [m|] eqn:Hm; [|done]; intros [= Hrun];
  destruct w as [a up ms p nr lg]; simpl in *;
  destruct ev as [f|f| | |s|b| |t|sp| |n rep]; simpl in Hm;
  [ destruct up as [[j u]|]; [|done]
  | destruct up as [[j u]|]; [|done]
  | destruct up as [[j u]|]; [|done]
  | destruct up as [[j u]|]; [|done]
  | destruct up as [[j u]|]; [|done]; destruct (file u) eqn:Hfile; [|done]
  | destruct up as [[j u]|]; [|done]; destruct (file u) eqn:Hfile; [|done]
  | destruct up as [[j u]|]; [|done]; destruct (file u) eqn:Hfile; [|done];
    destruct (uploading u) eqn:Hup; [done|]
  | | destruct (activeTab a) eqn:Htab; try done
    | destruct (activeTab a) eqn:Htab; try done
    | let k := fresh "k" in let Hn := fresh "Hn" in
      let m' := fresh "m'" in let Hres := fresh "Hres" in
      destruct (p !! n) as [k|] eqn:Hn; [|done];
      destruct (resume k rep) as [m'|] eqn:Hres; [|done];
      destruct k as [inst| | |], rep as [e|d|l|s|]; simpl in Hres; try done ];
  simplify_eq;
  revert Hrun; js_unfold; simpl; rewrite ?Hfile; simpl; rewrite ?Nat.eqb_refl; simpl;
  try (destruct f; simpl; [js_unfold; simpl|]; rewrite ?Nat.eqb_refl);
  try (match goal with d : UploadData |- _ => destruct (success d) eqn:?; simpl end);
  try (match goal with
       | inst : nat |- _ =>
           destruct up as [[j u]|]; simpl;
           [let E := fresh "E" in destruct (Nat.eqb j inst) eqn:E; repeat (simpl; rewrite ?E)|]
       end);
  intros [= <- <-]; simpl.

(** ** Bookkeeping of instances and requests *)

Section Tracked.

Variables (ms nr : nat) (p : gmap nat Pending).

Lemma tracked_edit i u u' :
  tracked_at (Some (i, u)) ms p nr ->
  uploading u' = uploading u ->
  tracked_at (Some (i, u')) ms p nr.
Proof.
  intros [Hi Hr Ho Hs Hf] E. split; [|done..|].
  - intros ? ? [= <- <-]. eauto.
  - intros ? ? [= <- <-]. rewrite E. eauto.
Qed.

Lemma tracked_unmount up : tracked_at up ms p nr -> tracked_at None ms p nr.
Proof. intros [Hi Hr Ho Hs Hf]. split; done. Qed.

Lemma tracked_mount :
  tracked_at None ms p nr -> tracked_at (Some (ms, initUploader)) (S ms) p nr.
Proof.
  intros [Hi Hr Ho Hs Hf]. split; [|done| |done|].
  - intros ? ? [= <- <-]. lia.
  - intros n i Hn. apply Ho in Hn. lia.
  - intros i u [= <- <-]. simpl. split; [done|]. intros [n Hn]. apply Ho in Hn. lia.
Qed.

Lemma tracked_issue up k :
  tracked_at up ms p nr ->
  is_upload k = false ->
  tracked_at up ms (<[nr := k]> p) (S nr).
Proof.
  intros [Hi Hr Ho Hs Hf] Hk. split; [done|..].
  - intros n k' [[<- <-]|[_ H]]%lookup_insert_Some; [lia|]. apply Hr in H. lia.
  - intros n i [[<- ->]|[_ H]]%lookup_insert_Some; [done|eauto].
  - intros n m i [[<- ->]|[_ H1]]%lookup_insert_Some; [done|].
    intros [[<- ->]|[_ H2]]%lookup_insert_Some; [done|eauto].
  - intros i u Hu. rewrite (Hf i u Hu). split; intros [n Hn].
    + exists n. rewrite lookup_insert_ne; [done|]. apply Hr in Hn. lia.
    + apply lookup_insert_Some in Hn as [[<- ->]|[_ H]]; [done|eauto].
Qed.

Lemma tracked_submit i u u' :
  tracked_at (Some (i, u)) ms p nr ->
  uploading u = false ->
  uploading u' = true ->
  tracked_at (Some (i, u')) ms (<[nr := PUpload i]> p) (S nr).
Proof.
  intros [Hi Hr Ho Hs Hf] Hu Hu'.
  assert (Hnone : forall n, p !! n = Some (PUpload i) -> False).
  { intros n Hn. destruct (Hf i u eq_refl) as [_ H]. rewrite Hu in H.
    discriminate H. eauto. }
  split.
  - intros ? ? [= <- <-]. eauto.
  - intros n k [[<- <-]|[_ H]]%lookup_insert_Some; [lia|]. apply Hr in H. lia.
  - intros n j [[<- E]|[_ H]]%lookup_insert_Some; [injection E as <-|]; eauto.
  - intros n m j [[<- E1]|[? H1]]%lookup_insert_Some
                 [[<- E2]|[? H2]]%lookup_insert_Some;
      try injection E1 as <-; try injection E2 as <-; eauto.
    + exfalso; eauto.
    + exfalso; eauto.
  - intros ? ? [= <- <-]. split; [|done]. intros _. exists nr.
    by rewrite lookup_insert_eq.
Qed.

Lemma tracked_settle up n k :
  tracked_at up ms p nr ->
  p !! n = Some k ->
  is_upload k = false ->
  tracked_at up ms (delete n p) nr.
Proof.
  intros [Hi Hr Ho Hs Hf] Hn Hk. split; [done|..].
  - intros m k' [_ H]%lookup_delete_Some. eauto.
  - intros m i [_ H]%lookup_delete_Some. eauto.
  - intros m m' i [_ H1]%lookup_delete_Some [_ H2]%lookup_delete_Some. eauto.
  - intros i u Hu. rewrite (Hf i u Hu). split; intros [m Hm].
    + exists m. rewrite lookup_delete_ne; [done|]. intros <-.
      rewrite Hn in Hm. by injection Hm as ->.
    + apply lookup_delete_Some in Hm as [_ H]. eauto.
Qed.

(** Settling the upload of instance [i]: afterwards no request of [i] is
    in flight, so its flag must be off; other instances are untouched. *)
Lemma tracked_settle_upload up up' n i :
  tracked_at up ms p nr ->
  p !! n = Some (PUpload i) ->
  (forall j u', up' = Some (j, u') ->
     exists u, up = Some (j, u) /\
       uploading u' = if Nat.eqb j i then false else uploading u) ->
  tracked_at up' ms (delete n p) nr.
Proof.
  intros [Hi Hr Ho Hs Hf] Hn Hup. split.
  - intros j u' Hj. destruct (Hup _ _ Hj) as (u & Hu & _). eauto.
  - intros m k' [_ H]%lookup_delete_Some. eauto.
  - intros m j [_ H]%lookup_delete_Some. eauto.
  - intros m m' j [_ H1]%lookup_delete_Some [_ H2]%lookup_delete_Some. eauto.
  - intros j u' Hj. destruct (Hup _ _ Hj) as (u & Hu & E). rewrite E.
    destruct (Nat.eqb_spec j i) as [->|Hne].
    + split; [done|]. intros [m [Hm H]%lookup_delete_Some].
      exfalso. apply Hm. eauto.
    + rewrite (Hf j u Hu). split; intros [m Hm].
      * exists m. rewrite lookup_delete_ne; [done|]. intros <-.
        rewrite Hn in Hm. by injection Hm as ->.
      * apply lookup_delete_Some in Hm as [_ H]. eauto.
Qed.

End Tracked.

Lemma tracked_render w : tracked w -> tracked (render_commit w).
Proof.
  destruct w as [a up ms p nr lg]. unfold tracked, render_commit; simpl.
  intros H. destruct (activeTab a); simpl; eauto using tracked_unmount.
  destruct up; simpl; [done|]. by apply tracked_mount.
Qed.

Lemma handle_tracked w ev r wh :
  tracked w -> handle w ev = Some (r, wh) -> tracked wh.
Proof.
  unfold tracked, handle.
  destruct (handler w ev) as [m|] eqn:Hm; [|done]. intros H [= Hrun].
  destruct w as [a up ms p nr lg]; simpl in *.
  destruct ev; simpl in Hm.
  1-7: destruct up as [[j u]|]; [|done].
  5-7: destruct (file u) eqn:Hfile; [|done].
  7: destruct (uploading u) eqn:Hup; [done|].
  1-7: injection Hm as <-; revert Hrun; js_unfold; simpl; rewrite ?Hfile; simpl;
       rewrite ?Nat.eqb_refl; simpl.
  1,3-6: by intros [= _ <-]; simpl; eapply tracked_edit.
  - destruct f; simpl; [unfold handleFileSelect; js_unfold; simpl|];
      rewrite ?Nat.eqb_refl; intros [= _ <-]; simpl; by eapply tracked_edit.
  - intros [= _ <-]; simpl. by eapply tracked_submit.
  - assert (m = setActiveTab t) as -> by congruence.
    revert Hrun; js_unfold; simpl. by intros [= _ <-].
  - destruct (activeTab a); try done.
    assert (m = handleSearch_start p0) as -> by congruence.
    revert Hrun; js_unfold; simpl. intros [= _ <-]; simpl. by apply tracked_issue.
  - destruct (activeTab a); try done.
    assert (m = resetSearch) as -> by congruence.
    revert Hrun; js_unfold; simpl. intros [= _ <-]; simpl. by apply tracked_issue.
  - destruct (p !! n) as [k|] eqn:Hn; [|done].
    destruct (resume k r0) as [m'|] eqn:Hres; [|done].
    assert (m = bind (settle n) (fun _ => m')) as -> by congruence.
    destruct k, r0; simpl in Hres; try done; injection Hres as <-.
    all: revert Hrun; js_unfold; simpl.
    all: try (destruct (success d) eqn:Hd; simpl).
    all: try (destruct up as [[j u]|] eqn:Hu; simpl;
              [destruct (Nat.eqb j inst) eqn:E; repeat (simpl; rewrite ?E)|]).
    all: intros [= _ <-]; simpl.
    all: try (by eapply tracked_settle).
    all: try (repeat apply tracked_issue; try done).
    all: try (eapply tracked_settle_upload; [exact H|exact Hn|];
              intros j' u' [= <- <-]; eexists; split; [done|]; by rewrite ?E).
    all: try (eapply tracked_settle_upload; [exact H|exact Hn|]; by intros j' u' [=]).
Qed.

Lemma step_tracked w ev w' : tracked w -> step w ev = Some w' -> tracked w'.
Proof.
  unfold step, fire. intros H.
  destruct (handle w ev) as [[r wh]|] eqn:Hh; [|done].
  intros [= <-]. apply tracked_render. by eapply handle_tracked.
Qed.

Lemma run_tracked evs w w' : tracked w -> run w evs = Some w' -> tracked w'.
Proof.
  revert w. induction evs as [|ev evs IH]; intros w H; simpl.
  - by intros [= <-].
  - destruct (step w ev) as [w1|] eqn:E; [|done]. apply IH. by eapply step_tracked.
Qed.

Lemma tracked_mounted : tracked mounted.
Proof.
  unfold tracked, mounted, mountEffect. js_unfold. simpl.
  apply tracked_issue; [|done]. apply tracked_issue; [|done].
  split; try done.
  - intros ? ? [= <- <-]. lia.
  - intros i u [= <- <-]. simpl. split; [done|]. by intros [n Hn].
Qed.

Lemma reachable_tracked w : reachable w -> tracked w.
Proof. intros [evs H]. eapply run_tracked; [apply tracked_mounted|done]. Qed.

Lemma reachable_submitted : reachable submitted.
Proof.
  exists [SelectFile (Some report); TypeTags "work, urgent"; CheckPublic true; ClickUpload].
  vm_compute. reflexivity.
Qed.

(** X4. On every reachable page, a form never has two uploads in flight,
    and the displayed form is [uploading] (its button disabled) exactly
    while one of its uploads is in flight: whenever a click on the upload
    button is accepted, no upload of that form is pending. *)
Theorem single_upload_in_flight w :
  reachable w ->
  (forall n m i,
     pending w !! n = Some (PUpload i) -> pending w !! m = Some (PUpload i) -> n = m) /\
  (forall i u, uploader w = Some (i, u) ->
     (uploading u = true <-> exists n, pending w !! n = Some (PUpload i))) /\
  (forall i u, uploader w = Some (i, u) ->
     is_Some (handler w ClickUpload) ->
     forall n, pending w !! n <> Some (PUpload i)).
Proof.
  intros Hr. destruct (reachable_tracked w Hr) as [Hi Hq Ho Hs Hf].
  split; [done|]. split; [done|].
  intros i u Hu [m Hm] n Hn. simpl in Hm. rewrite Hu in Hm.
  destruct (file u); [|done]. destruct (uploading u) eqn:E; [done|].
  destruct (Hf i u Hu) as [_ H]. rewrite E in H. discriminate H. eauto.
Qed.

Lemma single_upload_in_flight_witness :
  exists n, pending submitted !! n = Some (PUpload 0) /\
    forall m, pending submitted !! m = Some (PUpload 0) -> n = m.
Proof.
  destruct (single_upload_in_flight submitted reachable_submitted) as (Hs & _ & _).
  exists 2. split; [vm_compute; reflexivity|].
  intros m Hm. apply (Hs 2 m 0); [vm_compute; reflexivity|exact Hm].
Defined.

(** X5. No handler lets an exception escape: whatever the event, a
    rejected request included, the handler completes normally. *)
Theorem handlers_never_throw w ev r w' : fire w ev = Some (r, w') -> r = Ok tt.
Proof.
  unfold fire. destruct (handle w ev) as [[r' wh]|] eqn:Hh; [|done].
  intros [= <- _]. revert Hh. handle_cases w ev. all: done.
Qed.

Lemma handlers_never_throw_witness :
  exists w', fire browsing (Deliver 1 (Failed "Network Error")) = Some (Ok tt, w').
Proof.
  destruct (fire browsing (Deliver 1 (Failed "Network Error"))) as [[r w']|] eqn:E;
    [|vm_compute in E; discriminate].
  exists w'. by rewrite (handlers_never_throw _ _ _ _ E).
Defined.

Lemma handle_cache w ev r wh :
  handle w ev = Some (r, wh) ->
  files (app wh) = files_after ev (files (app w)) /\
  analytics (app wh) = analytics_after ev (analytics (app w)).
Proof. handle_cases w ev. all: done. Qed.

(** X6. The file collection and the analytics snapshot are caches of the
    last answer: after any sequence of events, the collection is the array
    of the last files answer delivered (listing or search alike) and the
    snapshot is the last analytics answer delivered; without one they are as
    before. No other event touches them. *)
Theorem caches_hold_last_answer evs : forall w w',
  run w evs = Some w' ->
  files (app w') = foldl (fun l ev => files_after ev l) (files (app w)) evs /\
  analytics (app w') = foldl (fun s ev => analytics_after ev s) (analytics (app w)) evs.
Proof.
  induction evs as [|ev evs IH]; intros w w'; simpl.
  - by intros [= <-].
  - destruct (step w ev) as [w1|] eqn:E; [|done]. intros H.
    destruct (IH _ _ H) as [-> ->].
    unfold step, fire in E. destruct (handle w ev) as [[r wh]|] eqn:Hh; [|done].
    injection E as <-. rewrite render_commit_app.
    by destruct (handle_cache _ _ _ _ Hh) as [-> ->].
Qed.

Lemma caches_hold_last_answer_witness :
  exists w', run browsing [SubmitSearch invoice; Deliver 2 (FilesReply (take 1 listing));
                           ClickTab TabAnalytics] = Some w' /\
    files (app w') = take 1 listing /\ analytics (app w') = None.
Proof.
  destruct (run browsing [SubmitSearch invoice; Deliver 2 (FilesReply (take 1 listing));
                          ClickTab TabAnalytics]) as [w'|] eqn:E;
    [|vm_compute in E; discriminate].
  exists w'. split; [done|].
  apply (caches_hold_last_answer _ browsing w' E).
Defined.

Lemma handle_loading w ev r wh :
  handle w ev = Some (r, wh) ->
  loading (app wh) =
    match ev with
    | Deliver n _ =>
        match pending w !! n with
        | Some PFiles => false
        | _ => loading (app w)
        end
    | _ => loading (app w)
    end.
Proof. handle_cases w ev. all: try done. all: by rewrite Hn. Qed.

(** X7. The loading flag is only ever lowered, and only by the answer to a
    request of [loadFiles], successful or not. An answer to a search leaves
    it alone, and so does sending a request: a reload after an upload or a
    reset never brings the loading placeholder back. *)
Theorem loading_only_lowered w ev w' :
  step w ev = Some w' ->
  (loading (app w) = false -> loading (app w') = false) /\
  (loading (app w') <> loading (app w) ->
     exists n r, ev = Deliver n r /\ pending w !! n = Some PFiles) /\
  (forall n r, ev = Deliver n r -> pending w !! n = Some PFiles ->
     loading (app w') = false) /\
  (forall n r, ev = Deliver n r -> pending w !! n = Some PSearch ->
     loading (app w') = loading (app w)).
Proof.
  unfold step, fire. destruct (handle w ev) as [[r wh]|] eqn:Hh; [|done].
  intros [= <-]. rewrite render_commit_app, (handle_loading _ _ _ _ Hh).
  destruct ev as [| | | | | | | | | |n r']; try (repeat split; done).
  destruct (pending w !! n) as [[]|] eqn:Hn; repeat split; try done.
  all: try (intros ? ? [= <- <-]; congruence).
  all: try (intros _; eauto).
Qed.

Lemma loading_only_lowered_witness :
  loading (app mounted) = true /\
  exists w', step mounted (Deliver 0 (Failed "Network Error")) = Some w' /\
    loading (app w') = false.
Proof.
  split; [reflexivity|].
  destruct (step mounted (Deliver 0 (Failed "Network Error"))) as [w'|] eqn:E;
    [|vm_compute in E; discriminate].
  exists w'. split; [done|].
  destruct (loading_only_lowered _ _ _ E) as (_ & _ & H & _).
  apply (H 0 (Failed "Network Error")); [reflexivity|vm_compute; reflexivity].
Defined.

Lemma handle_log w ev r wh :
  handle w ev = Some (r, wh) ->
  next_req w <= next_req wh /\
  exists delta, log wh = log w ++ delta /\
    (forall n q, Request n q ∈ delta -> contract q = true /\ next_req w <= n < next_req wh) /\
    (forall msg, Alert msg ∈ delta ->
       msg = upload_alert /\
       exists n i, pending w !! n = Some (PUpload i) /\
         (ev = Deliver n UploadNull \/ exists e, ev = Deliver n (Failed e))) /\
    (forall n i, pending w !! n = Some (PUpload i) ->
       ev = Deliver n UploadNull \/ (exists e, ev = Deliver n (Failed e)) ->
       Alert upload_alert ∈ delta).
Proof.
  handle_cases w ev.
  all: split; [lia|].
  all: rewrite <- ?app_assoc; simpl.
  all: first [ exists []; split; [by rewrite app_nil_r|]
             | eexists; split; [reflexivity|] ].
  all: split; [intros ? ?|split; [intros ?|intros n' i' Hp' Hev]];
    rewrite ?elem_of_cons, ?elem_of_nil.
  all: try (intros H; repeat (destruct H as [H|H]); try done; simplify_eq; eauto 10).
  all: try (split; [done|lia]).
  all: try (destruct Hev as [Hev|[e' Hev]]; simplify_eq; eauto).
Qed.

Lemma step_log w ev w' :
  step w ev = Some w' ->
  next_req w <= next_req w' /\
  exists delta, log w' = log w ++ delta /\
    (forall n q, Request n q ∈ delta -> contract q = true /\ next_req w <= n < next_req w') /\
    (forall msg, Alert msg ∈ delta ->
       msg = upload_alert /\
       exists n i, pending w !! n = Some (PUpload i) /\
         (ev = Deliver n UploadNull \/ exists e, ev = Deliver n (Failed e))) /\
    (forall n i, pending w !! n = Some (PUpload i) ->
       ev = Deliver n UploadNull \/ (exists e, ev = Deliver n (Failed e)) ->
       Alert upload_alert ∈ delta).
Proof.
  unfold step, fire. destruct (handle w ev) as [[r wh]|] eqn:Hh; [|done].
  intros [= <-]. rewrite render_commit_log, render_commit_next_req.
  by eapply handle_log.
Qed.

Lemma run_log evs : forall w w',
  run w evs = Some w' ->
  (forall n q, Request n q ∈ log w -> contract q = true /\ n < next_req w) ->
  (forall msg, Alert msg ∈ log w -> msg = upload_alert) ->
  (forall n q, Request n q ∈ log w' -> contract q = true /\ n < next_req w') /\
  (forall msg, Alert msg ∈ log w' -> msg = upload_alert).
Proof.
  induction evs as [|ev evs IH]; intros w w'; simpl.
  - intros [= <-]. done.
  - destruct (step w ev) as [w1|] eqn:E; [|done]. intros H Hq Ha.
    apply (IH _ _ H); destruct (step_log _ _ _ E) as (Hn & delta & -> & Hd & Hal & _).
    + intros n q [Hin|Hin]%elem_of_app.
      * destruct (Hq _ _ Hin). split; [done|lia].
      * destruct (Hd _ _ Hin). split; [done|lia].
    + intros msg [Hin|Hin]%elem_of_app; [by apply Ha|]. by apply Hal.
Qed.

(** X8. Every request the page ever sends is one of the four of the
    contract: [GET /files], [GET /analytics], [POST /upload] with form data,
    [POST /search] with a JSON body. Every alert it ever shows is the upload
    failure notice. *)
Theorem only_contract_requests w :
  reachable w ->
  (forall n q, Request n q ∈ log w -> contract q = true /\ n < next_req w) /\
  (forall msg, Alert msg ∈ log w -> msg = upload_alert).
Proof.
  intros [evs H]. apply (run_log _ _ _ H).
  - intros n q.
    change (log mounted) with [Request 0 (GET "/files"); Request 1 (GET "/analytics")].
    change (next_req mounted) with 2.
    rewrite !elem_of_cons, elem_of_nil.
    intros [[= -> ->]|[[= -> ->]|[]]]; (split; [reflexivity|lia]).
  - intros msg.
    change (log mounted) with [Request 0 (GET "/files"); Request 1 (GET "/analytics")].
    rewrite !elem_of_cons, elem_of_nil.
    intros [|[|[]]]; done.
Qed.

Lemma only_contract_requests_witness :
  contract (POST "/upload" (FormData report "work, urgent" true)) = true.
Proof.
  destruct (only_contract_requests submitted reachable_submitted) as [H _].
  apply (H 2).
  change (log submitted) with
    [Request 0 (GET "/files"); Request 1 (GET "/analytics");
     Request 2 (POST "/upload" (FormData report "work, urgent" true))].
  rewrite !elem_of_cons. auto.
Defined.

(** X9. The log only grows, and an event adds an alert exactly when it
    ends an upload request in flight in the [catch] block of [handleUpload]:
    the request was rejected, or it was answered without a body, so that
    reading [response.data.success] threw. The alert is then the upload
    failure notice. Failed listing, search and analytics requests, and
    upload answers that carry a body, whatever its [success], never
    alert. *)
Theorem alert_only_when_upload_throws w ev w' :
  step w ev = Some w' ->
  exists delta, log w' = log w ++ delta /\
    (forall msg, Alert msg ∈ delta ->
       msg = upload_alert /\
       exists n i, pending w !! n = Some (PUpload i) /\
         (ev = Deliver n UploadNull \/ exists e, ev = Deliver n (Failed e))) /\
    (forall n i, pending w !! n = Some (PUpload i) ->
       ev = Deliver n UploadNull \/ (exists e, ev = Deliver n (Failed e)) ->
       Alert upload_alert ∈ delta).
Proof.
  intros H. destruct (step_log _ _ _ H) as (_ & delta & Hl & _ & Ha & Hb). eauto.
Qed.

Lemma alert_only_when_upload_throws_witness :
  (exists w' delta,
     step submitted (Deliver 2 (UploadReply refused)) = Some w' /\
     log w' = log submitted ++ delta /\
     forall msg, Alert msg ∉ delta) /\
  (exists w' delta,
     step submitted (Deliver 2 UploadNull) = Some w' /\
     log w' = log submitted ++ delta /\
     Alert upload_alert ∈ delta).
Proof.
  split.
  - destruct (step submitted (Deliver 2 (UploadReply refused))) as [w'|] eqn:E;
      [|vm_compute in E; discriminate].
    destruct (alert_only_when_upload_throws _ _ _ E) as (delta & Hl & Ha & _).
    exists w', delta. split; [done|]. split; [done|].
    intros msg Hin. destruct (Ha msg Hin) as (_ & n & i & _ & [Hev|[e Hev]]);
      discriminate Hev.
  - destruct (step submitted (Deliver 2 UploadNull)) as [w'|] eqn:E;
      [|vm_compute in E; discriminate].
    destruct (alert_only_when_upload_throws _ _ _ E) as (delta & Hl & _ & Hb).
    exists w', delta. split; [done|]. split; [done|].
    apply (Hb 2 0); [vm_compute; reflexivity|by left].
Defined.

(** ** The analysis card, in general *)



Lemma select_list_texts c l : select_list c (Txt <$> l) = [].
Proof. induction l as [|x l IH]; [done|]. by rewrite fmap_cons, select_list_cons, IH. Qed.

Lemma select_list_child c v : select_list c (child v) = [].
Proof. destruct v; simpl; [done..|]. apply select_list_texts. Qed.

Lemma select_list_tag_spans l :
  select_list "analysis-item" ((fun tag => El "span" "tag" [Txt tag]) <$> l) = [].
Proof. induction l as [|x l IH]; [done|]. by rewrite fmap_cons, select_list_cons, IH. Qed.

Lemma select_guarded_plain o label (f : JV -> JV) :
  select_list "analysis-item"
    (guarded o (fun v => analysis_item label (Txt " " :: child (f v)))) =
  guarded o (fun v => analysis_item label (Txt " " :: child (f v))).
Proof.
  destruct o as [v|]; simpl; [|done]. destruct (truthy v); [|done].
  unfold analysis_item. autorewrite with sel. simpl.
  by rewrite select_list_child.
Qed.

Lemma select_guarded_confidence o :
  select_list "analysis-item"
    (guarded o (fun v => analysis_item "Confidence:"
                  [El "span" ("confidence " +:+ toString v) (child v)])) =
  guarded o (fun v => analysis_item "Confidence:"
                  [El "span" ("confidence " +:+ toString v) (child v)]).
Proof.
  destruct o as [v|]; simpl; [|done]. destruct (truthy v); [|done].
  unfold analysis_item. autorewrite with sel. simpl.
  by rewrite select_list_child.
Qed.

Lemma select_ai_tags o items :
  ai_tags o = Ok items -> select_list "analysis-item" items = items.
Proof.
  destruct o as [[|s|l]|]; simpl; try by intros [= <-].
  - destruct (negb _); [done|]. by intros [= <-].
  - intros [= <-]. destruct (0 <? length l)%nat; [|done].
    unfold analysis_item. autorewrite with sel. simpl.
    by rewrite select_list_tag_spans.
Qed.

Lemma card_items a view :
  AIAnalysisCard (Some a) = Ok (Some view) ->
  exists tag_items, ai_tags (a !! "tags") = Ok tag_items /\
  select "analysis-item" view =
    guarded (a !! "classification")
      (fun v => analysis_item "Classification:" (Txt " " :: child v)) ++
    guarded (a !! "summary")
      (fun v => analysis_item "Summary:" (Txt " " :: child v)) ++
    guarded (a !! "description")
      (fun v => analysis_item "Description:" (Txt " " :: child v)) ++
    guarded (a !! "key_topics")
      (fun v => analysis_item "Key Topics:" (Txt " " :: child (joined v))) ++
    guarded (a !! "key_subjects")
      (fun v => analysis_item "Key Subjects:" (Txt " " :: child (joined v))) ++
    guarded (a !! "entities")
      (fun v => analysis_item "Entities:" (Txt " " :: child (joined v))) ++
    tag_items ++
    guarded (a !! "confidence")
      (fun v => analysis_item "Confidence:"
         [El "span" ("confidence " +:+ toString v) (child v)]).
Proof.
  unfold AIAnalysisCard. destruct (size a =? 0)%nat; [done|].
  destruct (ai_tags (a !! "tags")) as [tag_items|] eqn:Ht; [|done].
  intros [= <-]. exists tag_items. split; [done|].
  cbn [List.concat]. autorewrite with sel. simpl.
  rewrite (select_guarded_plain _ _ id), (select_guarded_plain _ "Summary:" id),
    (select_guarded_plain _ "Description:" id),
    (select_guarded_plain _ "Key Topics:" joined),
    (select_guarded_plain _ "Key Subjects:" joined),
    (select_guarded_plain _ "Entities:" joined),
    select_guarded_confidence, (select_ai_tags _ _ Ht).
  assert (select_list "analysis-item" (default [] (child <$> a !! "ai_model")) = []) as ->.
  { destruct (a !! "ai_model"); simpl; [apply select_list_child|done]. }
  done.
Qed.

Lemma elem_of_guarded x o jsx :
  x ∈ guarded o jsx <-> exists v, o = Some v /\ truthy v = true /\ x = jsx v.
Proof.
  destruct o as [v|]; simpl.
  - destruct (truthy v) eqn:E.
    + rewrite list_elem_of_singleton. split; [intros ->; eauto|].
      by intros (? & [= <-] & _ & ->).
    + rewrite elem_of_nil. split; [done|]. intros (? & [= <-] & ? & _). congruence.
  - rewrite elem_of_nil. split; [done|]. by intros (? & ? & _).
Qed.

Lemma elem_of_ai_tags x o items :
  ai_tags o = Ok items ->
  x ∈ items <->
  exists l, o = Some (JArr l) /\ l <> [] /\
    x = analysis_item "AI Tags:"
          [El "div" "tags-container" ((fun tag => El "span" "tag" [Txt tag]) <$> l)].
Proof.
  destruct o as [[|s|l]|]; simpl.
  - intros [= <-]. rewrite elem_of_nil. split; [done|]. by intros (? & ? & _).
  - destruct (negb _); [done|]. intros [= <-]. rewrite elem_of_nil.
    split; [done|]. by intros (? & ? & _).
  - intros [= <-]. destruct l as [|t l]; simpl.
    + rewrite elem_of_nil. split; [done|]. by intros (? & [= <-] & ? & _).
    + rewrite list_elem_of_singleton. split; [intros ->; eauto|].
      by intros (? & [= <-] & _ & ->).
  - intros [= <-]. rewrite elem_of_nil. split; [done|]. by intros (? & ? & _).
Qed.

(** X11. In a rendered card, the item of a guarded key is shown exactly
    when the value under the key is truthy: a key that is absent, [null] or
    the empty string gives no item, while an empty array under [key_topics],
    [key_subjects] or [entities] still gives its labelled item. The AI tags
    item is shown exactly when [tags] is a non-empty array. *)
Theorem analysis_items_follow_truthiness a view :
  AIAnalysisCard (Some a) = Ok (Some view) ->
  (forall key label, (key, label) ∈ guarded_fields ->
     (shown label view <-> exists v, a !! key = Some v /\ truthy v = true)) /\
  (shown "AI Tags:" view <-> exists l, a !! "tags" = Some (JArr l) /\ l <> []).
Proof.
  intros Hv. destruct (card_items a view Hv) as (tag_items & Ht & Hsel).
  unfold shown. rewrite Hsel. clear Hsel Hv.
  pose proof (fun x => elem_of_ai_tags x _ _ Ht) as Htags.
  split.
  - intros key label Hin. unfold guarded_fields in Hin.
    repeat (apply elem_of_cons in Hin as [E|Hin]; [injection E as -> ->|]);
      [..|by apply elem_of_nil in Hin].
    all: split;
      [ intros [content Hc]; revert Hc;
        rewrite !elem_of_app, !elem_of_guarded, Htags; unfold analysis_item;
        naive_solver
      | intros (v & Hk & Hv); eexists;
        rewrite !elem_of_app, !elem_of_guarded, Htags; unfold analysis_item;
        naive_solver ].
  - split.
    + intros [content Hc]; revert Hc.
      rewrite !elem_of_app, !elem_of_guarded, Htags; unfold analysis_item. naive_solver.
    + intros (l & Hl & Hne). eexists.
      rewrite !elem_of_app, !elem_of_guarded, Htags; unfold analysis_item. naive_solver.
Qed.

Lemma analysis_items_follow_truthiness_witness :
  exists view,
    AIAnalysisCard (Some {[ "key_topics" := JArr []; "summary" := JStr "" ]})
      = Ok (Some view) /\
    shown "Key Topics:" view /\ ~ shown "Summary:" view.
Proof.
  destruct (AIAnalysisCard (Some {[ "key_topics" := JArr []; "summary" := JStr "" ]}))
    as [[view|]|] eqn:E; [|vm_compute in E; discriminate..].
  exists view. split; [done|].
  destruct (analysis_items_follow_truthiness _ view E) as [H _].
  split.
  - apply (H "key_topics" "Key Topics:");
      [unfold guarded_fields;
       repeat first [apply list_elem_of_here | apply list_elem_of_further]|].
    exists (JArr []). split; [vm_compute; reflexivity|reflexivity].
  - intros Hs. apply (H "summary" "Summary:") in Hs;
      [|unfold guarded_fields;
        repeat first [apply list_elem_of_here | apply list_elem_of_further]].
    destruct Hs as (v & Hv & Ht). vm_compute in Hv. injection Hv as <-. discriminate Ht.
Defined.

(** ** The analytics view, in general *)

Lemma nonempty_dichotomy {A} (l : option (list A)) (jsx : list A -> Node) :
  (nonempty l jsx = [] /\ default [] l = []) \/
  (nonempty l jsx = [jsx (default [] l)] /\ default [] l <> []).
Proof. destruct l as [[|x l]|]; simpl; auto. Qed.

Lemma select_rows_other c (row : Stats.bucket -> Node) l :
  (forall b, select c (row b) = []) -> select_list c (row <$> l) = [].
Proof.
  intros H. induction l as [|b l IH]; [done|].
  by rewrite fmap_cons, select_list_cons, H, IH.
Qed.

(** * The page as rendered *)

Section Pick.

Variable c : string.

Lemma pick_Tag tag cls attrs ch :
  pick c (Tag tag cls attrs ch) =
  (if String.eqb cls c then [Tag tag cls attrs ch] else []) ++ pick_list c ch.
Proof. reflexivity. Qed.

Lemma pick_Text s : pick c (Text s) = [].
Proof. reflexivity. Qed.

Lemma pick_Number z : pick c (Number z) = [].
Proof. reflexivity. Qed.

Lemma pick_Component n : pick c (Component n) = Component <$> select c n.
Proof. reflexivity. Qed.

Lemma pick_list_nil : pick_list c [] = [].
Proof. reflexivity. Qed.

Lemma pick_list_cons x l : pick_list c (x :: l) = pick c x ++ pick_list c l.
Proof. reflexivity. Qed.

Lemma pick_list_app l1 l2 : pick_list c (l1 ++ l2) = pick_list c l1 ++ pick_list c l2.
Proof. unfold pick_list. by rewrite fmap_app, concat_app. Qed.

End Pick.

Create Rewrite HintDb pk.
#[local] Hint Rewrite pick_Tag pick_Text pick_Number pick_Component
  pick_list_nil pick_list_cons pick_list_app app_nil_l app_nil_r : pk.

(** Membership in a list of class names, by computation. *)
Ltac in_list := apply (bool_decide_unpack _); vm_compute; exact I.

(** Rewrites the tests of [c] against the class names that [H] excludes. *)
Ltac not_class H :=
  repeat match goal with
         | |- context [String.eqb ?x ?c] => rewrite (H x) by in_list
         end.

(** [none_of L c] for a given class name [c]. *)
Ltac concrete :=
  let x := fresh in let Hx := fresh in
  intros x Hx; unfold none_of in *;
  repeat (apply elem_of_cons in Hx as [->|Hx]; [reflexivity|]);
  by apply elem_of_nil in Hx.

(** ** Class inventories *)

Lemma eqb_append_prefix p s c :
  String.prefix p c = false -> String.eqb (p +:+ s) c = false.
Proof.
  intros H. apply String.eqb_neq. intros <-.
  by rewrite prefix_append in H.
Qed.

#[local] Hint Rewrite select_El select_Txt select_Num select_list_nil select_list_cons
  select_list_app : pk.

Lemma none_of_app L1 L2 c : none_of (L1 ++ L2) c <-> none_of L1 c /\ none_of L2 c.
Proof.
  unfold none_of. split.
  - intros H. split; intros x Hx; apply H; apply elem_of_app; auto.
  - intros [H1 H2] x [Hx|Hx]%elem_of_app; auto.
Qed.

Lemma select_guarded_none c o (jsx : JV -> Node) :
  (forall v, select c (jsx v) = []) -> select_list c (guarded o jsx) = [].
Proof.
  intros H. destruct o as [v|]; simpl; [|done]. destruct (truthy v); [|done].
  by rewrite select_list_cons, H.
Qed.

Lemma select_spans_none c cls l :
  String.eqb cls c = false ->
  select_list c ((fun tag => El "span" cls [Txt tag]) <$> l) = [].
Proof.
  intros H. induction l as [|x l IH]; [done|].
  rewrite fmap_cons, select_list_cons, IH. autorewrite with pk. by rewrite H.
Qed.

Lemma none_of_cons x L c : none_of (x :: L) c <-> String.eqb x c = false /\ none_of L c.
Proof.
  unfold none_of. split.
  - intros H. split; [apply H; left|intros y Hy; apply H; by right].
  - intros [H1 H2] y [->|Hy]%elem_of_cons; auto.
Qed.

(** The root of an analysis card is its only element of class
    [ai-analysis-card]. *)
Lemma analysis_select c a n :
  none_of analysis_inner c ->
  String.prefix "confidence " c = false ->
  AIAnalysisCard a = Ok (Some n) ->
  select c n = if String.eqb "ai-analysis-card" c then [n] else [].
Proof.
  intros H Hp. destruct a as [a|]; [|done]. unfold AIAnalysisCard.
  destruct (size a =? 0)%nat; [done|].
  destruct (ai_tags (a !! "tags")) as [items|] eqn:Ht; [|done]. intros Hn.
  assert (Hitems : select_list c items = []).
  { destruct (a !! "tags") as [[|s|l]|]; simpl in Ht.
    - by injection Ht as <-.
    - destruct (negb _); [done|]. by injection Ht as <-.
    - injection Ht as <-. destruct (0 <? length l)%nat; [|done]. unfold analysis_item.
      autorewrite with pk. not_class H. rewrite select_spans_none; [done|].
      apply H. in_list.
    - by injection Ht as <-. }
  injection Hn as Hn. rewrite <- Hn at 1. rewrite select_El, Hn.
  rewrite <- (app_nil_r (if String.eqb "ai-analysis-card" c then [n] else [])) at 2.
  f_equal. clear Hn n. cbn [List.concat]. autorewrite with pk. not_class H.
  rewrite !select_guarded_none, Hitems; [| intros v; unfold analysis_item;
    autorewrite with pk; not_class H; rewrite ?(eqb_append_prefix _ _ _ Hp),
      ?select_list_child; reflexivity ..].
  destruct (a !! "ai_model"); simpl; rewrite ?select_list_child; done.
Qed.

Lemma analysis_has_no c a n :
  none_of analysis_classes c ->
  String.prefix "confidence " c = false ->
  AIAnalysisCard a = Ok (Some n) ->
  select c n = [].
Proof.
  intros [Hc H]%none_of_cons Hp Ha. by rewrite (analysis_select _ _ _ H Hp Ha), Hc.
Qed.

(** The root of the analytics view is its only element of class
    [analytics-section]. *)
Lemma analytics_select c x n :
  none_of analytics_inner c ->
  Analytics x = Some n ->
  select c n = if String.eqb "analytics-section" c then [n] else [].
Proof.
  intros H. destruct x as [a|]; [|done]. unfold Analytics. intros Hn.
  injection Hn as Hn. rewrite <- Hn at 1. rewrite select_El, Hn.
  rewrite <- (app_nil_r (if String.eqb "analytics-section" c then [n] else [])) at 2.
  f_equal. clear Hn n.
  unfold slice0. cbn [List.concat app].
  repeat match goal with
         | |- context [nonempty ?l ?f] =>
             destruct (nonempty_dichotomy l f) as [[-> _] | [-> _]]
         end.
  all: autorewrite with pk; not_class H; simpl.
  all: rewrite ?(select_rows_other _ type_stat), ?(select_rows_other _ popular_tag);
    try done.
  all: intros b; unfold type_stat, popular_tag; autorewrite with pk; not_class H; done.
Qed.

Lemma analytics_has_no c x n :
  none_of analytics_classes c -> Analytics x = Some n -> select c n = [].
Proof.
  intros [Hc H]%none_of_cons Ha. by rewrite (analytics_select _ _ _ H Ha), Hc.
Qed.

(** When [AIAnalysisCard] renders nothing, and when it throws. *)
Lemma AIAnalysisCard_None analysis :
  AIAnalysisCard analysis = Ok None <-> analysis = None \/ analysis = Some ∅.
Proof.
  destruct analysis as [a|]; simpl; [|split; auto].
  destruct (Nat.eqb_spec (size a) 0) as [Hs|Hs].
  { apply map_size_empty_iff in Hs as ->. split; auto. }
  assert (Hne : a <> ∅) by (by intros ->).
  destruct (ai_tags (a !! "tags")); (split; [done|intros [|[= ->]]; done]).
Qed.

Lemma AIAnalysisCard_Throw analysis e :
  AIAnalysisCard analysis = Throw e <->
  e = tags_error /\
  exists a s, analysis = Some a /\ a !! "tags" = Some (JStr s) /\ s <> "".
Proof.
  destruct analysis as [a|]; simpl.
  2: { split; [done|]. by intros (_ & a & s & ? & _). }
  destruct (Nat.eqb_spec (size a) 0) as [Hs|Hs].
  { apply map_size_empty_iff in Hs as ->.
    split; [done|]. intros (_ & a & s & [= <-] & H & _). by rewrite lookup_empty in H. }
  destruct (a !! "tags") as [[|s|l]|] eqn:Ht; simpl.
  1,3,4: split; [done|]; intros (_ & a' & s' & [= <-] & H & _); congruence.
  destruct (String.eqb_spec s "") as [->|Hse]; simpl.
  - split; [done|]. intros (_ & a' & s' & [= <-] & H & Hs'). congruence.
  - split.
    + intros [= <-]. split; [done|]. eauto.
    + by intros [-> _].
Qed.

(** ** The form on the page *)

Lemma render_commit_displayed w : displayed (render_commit w).
Proof.
  unfold displayed. rewrite render_commit_uploader, render_commit_app.
  destruct (activeTab (app w)); split; try done; by intros [? [=]].
Qed.

Lemma step_displayed w ev w' : step w ev = Some w' -> displayed w'.
Proof.
  unfold step, fire. destruct (handle w ev) as [[r wh]|]; [|done].
  intros [= <-]. apply render_commit_displayed.
Qed.

Lemma run_displayed evs : forall w w', displayed w -> run w evs = Some w' -> displayed w'.
Proof.
  induction evs as [|ev evs IH]; intros w w' H; simpl.
  - by intros [= <-].
  - destruct (step w ev) as [w1|] eqn:E; [|done]. apply IH. by eapply step_displayed.
Qed.

Lemma displayed_mounted : displayed mounted.
Proof. split; [reflexivity|]. intros _. by eexists. Qed.

Lemma reachable_displayed w : reachable w -> displayed w.
Proof. intros [evs H]. eapply run_displayed; [apply displayed_mounted|done]. Qed.

Lemma render_commit_displayed_uploader w :
  displayed w -> uploader (render_commit w) = uploader w.
Proof.
  unfold displayed. intros [H1 H2]. rewrite render_commit_uploader.
  destruct (activeTab (app w)) eqn:Ht.
  - destruct (H2 eq_refl) as [x ->]. done.
  - destruct (uploader w); [|done]. by discriminate H1.
  - destruct (uploader w); [|done]. by discriminate H1.
Qed.

(** X13. Answers to an upload whose form is no longer on the page are not
    discarded. A rejection still logs the error and shows the alert, and an
    answer with [success = false] does nothing more; in both cases the state
    of [App] and the form now displayed (if any: a later instance) are
    untouched. A successful answer still makes the files tab active, which
    unmounts whatever form is displayed, and sends the two reload
    requests. *)
Theorem late_upload_answer w n i r w' :
  reachable w ->
  pending w !! n = Some (PUpload i) ->
  (forall u, uploader w <> Some (i, u)) ->
  step w (Deliver n r) = Some w' ->
  (forall e, r = Failed e ->
     app w' = app w /\ uploader w' = uploader w /\
     log w' = log w ++ [ConsoleError "Upload failed:" e; Alert upload_alert]) /\
  (forall d, r = UploadReply d -> success d = false ->
     app w' = app w /\ uploader w' = uploader w /\ log w' = log w) /\
  (forall d, r = UploadReply d -> success d = true ->
     activeTab (app w') = TabFiles /\ uploader w' = None /\
     log w' = log w ++ [Request (next_req w) (GET "/files");
                        Request (S (next_req w)) (GET "/analytics")]).
Proof.
  intros Hr Hp Hgone Hstep. apply reachable_displayed in Hr.
  assert (Hsame : forall c : UploaderState -> UploaderState,
            match uploader w with
            | Some (j, u) => Some (j, if Nat.eqb j i then c u else u)
            | None => None
            end = uploader w).
  { intros c. destruct (uploader w) as [[j u]|] eqn:Hu; [|done].
    destruct (Nat.eqb_spec j i) as [->|]; [|done]. by destruct (Hgone u). }
  assert (Hkeep : forall wh, app wh = app w -> uploader wh = uploader w ->
            uploader (render_commit wh) = uploader w).
  { intros wh Ha Hu. rewrite render_commit_displayed_uploader; [done|].
    unfold displayed. by rewrite Ha, Hu. }
  repeat split.
  - subst r. destruct (upload_rejected_handle w n i e Hp) as (wh & Hh & Ha & Hl & Hup).
    rewrite (step_handle _ _ _ _ Hh) in Hstep. injection Hstep as <-.
    by rewrite render_commit_app.
  - subst r. destruct (upload_rejected_handle w n i e Hp) as (wh & Hh & Ha & Hl & Hup).
    rewrite (step_handle _ _ _ _ Hh) in Hstep. injection Hstep as <-.
    apply Hkeep; [done|]. by rewrite Hup, Hsame.
  - subst r. destruct (upload_rejected_handle w n i e Hp) as (wh & Hh & Ha & Hl & Hup).
    rewrite (step_handle _ _ _ _ Hh) in Hstep. injection Hstep as <-.
    by rewrite render_commit_log.
  - subst r. destruct (upload_refused_handle w n i d Hp H0) as (wh & Hh & Ha & Hl & Hup).
    rewrite (step_handle _ _ _ _ Hh) in Hstep. injection Hstep as <-.
    by rewrite render_commit_app.
  - subst r. destruct (upload_refused_handle w n i d Hp H0) as (wh & Hh & Ha & Hl & Hup).
    rewrite (step_handle _ _ _ _ Hh) in Hstep. injection Hstep as <-.
    apply Hkeep; [done|]. by rewrite Hup, Hsame.
  - subst r. destruct (upload_refused_handle w n i d Hp H0) as (wh & Hh & Ha & Hl & Hup).
    rewrite (step_handle _ _ _ _ Hh) in Hstep. injection Hstep as <-.
    by rewrite render_commit_log.
  - subst r. destruct (upload_accepted_handle w n i d Hp H0) as (wh & Hh & Ha & _).
    rewrite (step_handle _ _ _ _ Hh) in Hstep. injection Hstep as <-.
    by rewrite render_commit_app, Ha.
  - subst r. destruct (upload_accepted_handle w n i d Hp H0) as (wh & Hh & Ha & _).
    rewrite (step_handle _ _ _ _ Hh) in Hstep. injection Hstep as <-.
    by rewrite render_commit_uploader, Ha.
  - subst r. destruct (upload_accepted_handle w n i d Hp H0) as (wh & Hh & Ha & Hl & _).
    rewrite (step_handle _ _ _ _ Hh) in Hstep. injection Hstep as <-.
    by rewrite render_commit_log.
Qed.

Lemma reachable_abandoned : reachable abandoned.
Proof.
  exists [SelectFile (Some report); TypeTags "work, urgent"; CheckPublic true; ClickUpload;
          ClickTab TabFiles].
  vm_compute. reflexivity.
Qed.

Lemma late_upload_answer_witness :
  exists w', step abandoned (Deliver 2 (Failed "Network Error")) = Some w' /\
    uploader w' = uploader abandoned /\
    log w' = log abandoned ++
      [ConsoleError "Upload failed:" "Network Error"; Alert upload_alert].
Proof.
  set (w' := default blank (step abandoned (Deliver 2 (Failed "Network Error")))).
  exists w'. split; [vm_compute; reflexivity|].
  assert (Hgone : forall u, uploader abandoned <> Some (0, u)).
  { intros u. vm_compute. discriminate. }
  destruct (late_upload_answer abandoned 2 0 (Failed "Network Error") w' reachable_abandoned)
    as (H & _); [vm_compute; reflexivity | exact Hgone | vm_compute; reflexivity|].
  exact (proj2 (H "Network Error" eq_refl)).
Defined.

(** X14. Dropping and picking differ when no file comes with the event:
    [handleDrop] tests [droppedFile] and keeps the selection, while the file
    input passes [e.target.files[0]] to [handleFileSelect] untested, which
    clears it. With a file, both replace the selection. Both keep the tags,
    the visibility and [uploading]; the drop also ends the highlight.
    Neither touches the state of [App], the requests in flight or the
    log. *)
Theorem drop_keeps_select_clears w i u fo :
  uploader w = Some (i, u) ->
  activeTab (app w) = TabUpload ->
  exists wd ws,
    step w (DropFile fo) = Some wd /\
    step w (SelectFile fo) = Some ws /\
    uploader wd = Some (i, {| file := from_option Some (file u) fo; tags := tags u;
                              isPublic := isPublic u; uploading := uploading u;
                              dragOver := false |}) /\
    uploader ws = Some (i, {| file := fo; tags := tags u; isPublic := isPublic u;
                              uploading := uploading u; dragOver := dragOver u |}) /\
    app wd = app w /\ app ws = app w /\
    pending wd = pending w /\ pending ws = pending w /\
    log wd = log w /\ log ws = log w.
Proof.
  intros Hu Ht. destruct w as [a up ms p nr lg]. simpl in *. subst up.
  unfold step, fire. js_unfold. simpl.
  destruct fo as [f|]; simpl; rewrite ?Nat.eqb_refl; simpl; rewrite ?Nat.eqb_refl; simpl.
  all: do 2 eexists; split; [reflexivity|]; split; [reflexivity|].
  all: rewrite !render_commit_uploader, !render_commit_app, !render_commit_pending,
         !render_commit_log; simpl; rewrite Ht; simpl; repeat split; reflexivity.
Qed.

Lemma reachable_selected : reachable selected.
Proof.
  exists [SelectFile (Some report); TypeTags "work, urgent"; CheckPublic true].
  vm_compute. reflexivity.
Qed.

Lemma drop_keeps_select_clears_witness :
  exists wd ws,
    step selected (DropFile None) = Some wd /\
    step selected (SelectFile None) = Some ws /\
    (file <$> (snd <$> uploader wd)) = Some (Some report) /\
    (file <$> (snd <$> uploader ws)) = Some None.
Proof.
  destruct (drop_keeps_select_clears selected 0
              {| file := Some report; tags := "work, urgent"; isPublic := true;
                 uploading := false; dragOver := false |} None)
    as (wd & ws & Hd & Hs & Hud & Hus & _); [vm_compute; reflexivity..|].
  exists wd, ws. rewrite Hud, Hus. repeat split; assumption.
Defined.

(** ** The components as rendered *)

Section Views.

Context {fmt : Formatting}.

Lemma uploader_has_no c u :
  none_of uploader_classes c -> pick c (FileUploader u) = [].
Proof.
  intros H. destruct u as [[f|] t p up dz]; destruct dz; unfold FileUploader; simpl file;
    cbn [app dragOver String.append]; autorewrite with pk; not_class H; reflexivity.
Qed.

(** X15. [FileUploader] shows the prompt and no option (no tags field, no
    upload button) while no file is selected. With a file selected it shows
    the name of the file, the tags field holding [tags] and one upload button
    whose [disabled] is [uploading]; the prompt is gone. *)
Theorem uploader_shows_options_iff_file u :
  (file u = None ->
     pick "upload-options" (FileUploader u) = [] /\
     pick "upload-btn" (FileUploader u) = [] /\
     pick "tags-input" (FileUploader u) = [] /\
     length (pick "upload-prompt" (FileUploader u)) = 1) /\
  (forall f, file u = Some f ->
     (exists label,
        pick "upload-btn" (FileUploader u) =
          [Tag "button" "upload-btn" [AttrB "disabled" (uploading u)] label]) /\
     (exists placeholder,
        pick "tags-input" (FileUploader u) =
          [Tag "input" "tags-input"
             [AttrS "type" "text"; AttrS "value" (tags u); placeholder] []]) /\
     pick "file-name" (FileUploader u) = [Tag "div" "file-name" [] [Text (blob_name f)]] /\
     pick "upload-prompt" (FileUploader u) = []).
Proof.
  destruct u as [[f|] t p up dz]; destruct dz; simpl; (split; [intros; try done|]).
  all: try (intros ? [= <-]; repeat split; eauto).
  all: try (repeat split; done).
  all: by intros ? [=].
Qed.

Lemma searchbar_has_no c sb :
  none_of searchbar_classes c -> pick c (SearchBar_view sb) = [].
Proof.
  intros H. unfold SearchBar_view. autorewrite with pk; not_class H; reflexivity.
Qed.

Lemma pick_chips c l :
  pick_list c (chip <$> l) = if String.eqb "tag" c then chip <$> l else [].
Proof.
  induction l as [|x l IH].
  - change (chip <$> []) with (@nil Html). rewrite pick_list_nil.
    by destruct (String.eqb "tag" c).
  - rewrite fmap_cons, pick_list_cons, IH. unfold chip at 1. autorewrite with pk.
    by destruct (String.eqb "tag" c).
Qed.

Lemma pick_file_tags c l :
  pick_list c (file_tags l) =
  (if String.eqb "file-tags" c then file_tags l else []) ++
  (if String.eqb "tag" c then chip <$> default [] l else []).
Proof.
  destruct l as [[|x l]|].
  - change (file_tags (Some [])) with (@nil Html). rewrite pick_list_nil.
    by destruct (String.eqb "file-tags" c), (String.eqb "tag" c).
  - change (file_tags (Some (x :: l)))
      with [Tag "div" "file-tags" [] (chip <$> (x :: l))].
    autorewrite with pk. rewrite pick_chips.
    by destruct (String.eqb "file-tags" c), (String.eqb "tag" c).
  - change (file_tags None) with (@nil Html). rewrite pick_list_nil.
    by destruct (String.eqb "file-tags" c), (String.eqb "tag" c).
Qed.

(** The parts of a rendered file card. *)
Lemma FileCard_Ok f card :
  FileCard f = Ok card ->
  exists analysis,
    AIAnalysisCard (Rec.ai_analysis f) = Ok analysis /\
    card = Tag "div" "file-card" [] (
      [ Tag "div" "file-header" [] [
          Tag "div" "file-icon-large" [] [Text (getFileIcon (Rec.file_type f))];
          Tag "div" "file-details" [] [
            Tag "h3" "file-name" [] [Text (Rec.original_filename f)];
            Tag "p" "file-meta" [] [
              Text (megabytes (Rec.file_size f)); Text " MB • ";
              Text (formatDate (Rec.upload_timestamp f))]]] ] ++
      file_tags (Rec.tags f) ++
      match analysis with
      | Some n => [Component n]
      | None => []
      end).
Proof.
  unfold FileCard. destruct (AIAnalysisCard _) as [analysis|]; [|done].
  intros [= <-]. eauto.
Qed.

Lemma card_has_no c f card :
  none_of ("file-card" :: card_classes) c ->
  String.prefix "confidence " c = false ->
  FileCard f = Ok card ->
  pick c card = [].
Proof.
  intros H Hp Hc. destruct (FileCard_Ok _ _ Hc) as (analysis & Ha & ->).
  assert (Hn : none_of analysis_classes c).
  { intros x Hx. apply H. right. unfold card_classes. apply elem_of_app. by right. }
  autorewrite with pk. rewrite pick_file_tags. not_class H. simpl.
  destruct analysis as [n|]; [|done].
  autorewrite with pk. by rewrite (analysis_has_no _ _ _ Hn Hp Ha).
Qed.

Lemma card_is_file_card f card :
  FileCard f = Ok card -> pick "file-card" card = [card].
Proof.
  intros Hc. destruct (FileCard_Ok _ _ Hc) as (analysis & Ha & ->).
  autorewrite with pk. rewrite pick_file_tags. simpl.
  destruct analysis as [n|]; [|done].
  autorewrite with pk. rewrite (analysis_has_no "file-card" _ _ ltac:(concrete) eq_refl Ha).
  done.
Qed.

Lemma FileCards_Ok l cards :
  FileCards l = Ok cards -> Forall2 (fun f card => FileCard f = Ok card) l cards.
Proof.
  revert cards. induction l as [|f l IH]; intros cards; simpl.
  - intros [= <-]. constructor.
  - destruct (FileCard f) as [card|] eqn:E; [|done].
    destruct (FileCards l) as [cards'|]; [|done]. intros [= <-].
    constructor; [done|]. by apply IH.
Qed.

Lemma cards_are_file_cards l cards :
  Forall2 (fun f card => FileCard f = Ok card) l cards ->
  pick_list "file-card" cards = cards.
Proof.
  induction 1 as [|f card l cards Hc _ IH]; [done|].
  by rewrite pick_list_cons, (card_is_file_card _ _ Hc), IH.
Qed.

Lemma cards_have_no c l cards :
  none_of ("file-card" :: card_classes) c ->
  String.prefix "confidence " c = false ->
  Forall2 (fun f card => FileCard f = Ok card) l cards ->
  pick_list c cards = [].
Proof.
  intros H Hp. induction 1 as [|f card l cards Hc _ IH]; [done|].
  by rewrite pick_list_cons, (card_has_no _ _ _ H Hp Hc), IH.
Qed.

Lemma files_body_has_no c a body :
  none_of body_classes c ->
  String.prefix "confidence " c = false ->
  files_body a = Ok body ->
  pick c body = [].
Proof.
  intros H Hp. unfold files_body.
  assert (Hc : none_of ("file-card" :: card_classes) c).
  { intros x Hx. apply H. unfold body_classes. apply elem_of_app.
    apply elem_of_cons in Hx as [->|Hx]; [left; in_list|by right]. }
  destruct (loading a).
  { intros [= <-]. autorewrite with pk. not_class H. done. }
  destruct (length (files a) =? 0)%nat.
  { intros [= <-]. autorewrite with pk. not_class H. done. }
  destruct (FileCards (files a)) as [cards|] eqn:E; [|done]. intros [= <-].
  autorewrite with pk. not_class H.
  by rewrite (cards_have_no _ _ _ Hc Hp (FileCards_Ok _ _ E)).
Qed.

Lemma main_sections_have_no c a u sb sections :
  none_of section_classes c ->
  String.prefix "confidence " c = false ->
  main_sections a u sb = Ok sections ->
  pick_list c sections = [].
Proof.
  intros H Hp. unfold main_sections.
  unfold section_classes in H.
  apply none_of_app in H as [Hw H]. apply none_of_app in H as [Hu H].
  apply none_of_app in H as [Hs H]. apply none_of_app in H as [Hb Ha].
  destruct (activeTab a).
  - intros [= <-]. autorewrite with pk. not_class Hw.
    rewrite (uploader_has_no _ _ Hu). rewrite (Hu "") by in_list. done.
  - destruct (files_body a) as [body|] eqn:E; [|done]. intros [= <-].
    autorewrite with pk. not_class Hw.
    rewrite (searchbar_has_no _ _ Hs), (files_body_has_no _ _ _ Hb Hp E).
    rewrite (Hu "") by in_list. done.
  - intros [= <-]. destruct (Analytics (analytics a)) as [n|] eqn:E; [|done].
    autorewrite with pk. by rewrite (analytics_has_no _ _ _ Ha E).
Qed.

(** A class that is not one of the frame of the page is found in the
    navigation buttons or in the sections of [<main>]. *)
Lemma pick_page c w sb page :
  App w sb = Ok page ->
  none_of frame_classes c ->
  exists sections,
    main_sections (app w) (from_option snd initUploader (uploader w)) sb = Ok sections /\
    pick c page =
      pick_list c [
        nav_btn (is_tab (activeTab (app w)) TabUpload) (tab_label (app w) TabUpload);
        nav_btn (is_tab (activeTab (app w)) TabFiles) (tab_label (app w) TabFiles);
        nav_btn (is_tab (activeTab (app w)) TabAnalytics) (tab_label (app w) TabAnalytics)] ++
      pick_list c sections.
Proof.
  unfold App. destruct (main_sections _ _ _) as [sections|]; [|done].
  intros [= <-] H. exists sections. split; [done|].
  rewrite pick_Tag, (H "App") by in_list. rewrite app_nil_l.
  rewrite pick_list_cons with (x := Tag "header" _ _ _).
  rewrite pick_list_cons with (x := Tag "nav" _ _ _).
  rewrite pick_list_cons with (x := Tag "main" _ _ _).
  rewrite pick_list_cons with (x := Tag "footer" _ _ _), pick_list_nil.
  assert (pick c (Tag "header" "app-header" [] [
            Tag "div" "header-content" [] [
              Tag "div" "logo-section" [] [
                Tag "div" "logo" [] [Text "🧠"];
                Tag "div" "brand-text" [] [
                  Tag "h1" "" [] [Text "IntelliShare"];
                  Tag "p" "" [] [Text "Smart File Sharing with AI Intelligence"]]]]]) = [])
    as -> by (autorewrite with pk; not_class H; done).
  assert (pick c (Tag "footer" "app-footer" [] [
            Tag "div" "footer-content" [] [
              Tag "div" "footer-branding" [] [
                Tag "span" "footer-logo" [] [Text "🧠"];
                Tag "span" "footer-text" [] [Text "IntelliShare"]];
              Tag "div" "footer-tagline" [] [Text "Powered by Advanced AI Technology"]]]) = [])
    as -> by (autorewrite with pk; not_class H; done).
  rewrite !pick_Tag, (H "app-nav"), (H "app-main") by in_list.
  by rewrite !app_nil_l, !app_nil_r.
Qed.

(** X16. Exactly one navigation button is marked [active], the one of the
    active tab; the other two follow unmarked, in the order of the bar. *)
Theorem nav_marks_active_tab w sb page :
  App w sb = Ok page ->
  pick "nav-btn active" page =
    [nav_btn true (tab_label (app w) (activeTab (app w)))] /\
  pick "nav-btn " page =
    (fun t => nav_btn false (tab_label (app w) t)) <$>
      filter (fun t => t <> activeTab (app w)) tabs.
Proof.
  intros Hp.
  destruct (pick_page "nav-btn active" _ _ _ Hp ltac:(concrete)) as (s1 & Hs1 & ->).
  destruct (pick_page "nav-btn " _ _ _ Hp ltac:(concrete)) as (s2 & Hs2 & ->).
  rewrite (main_sections_have_no "nav-btn active" _ _ _ _ ltac:(concrete) eq_refl Hs1).
  rewrite (main_sections_have_no "nav-btn " _ _ _ _ ltac:(concrete) eq_refl Hs2).
  destruct (activeTab (app w)); split; reflexivity.
Qed.

Lemma pick_no_nav c a :
  String.eqb "nav-btn active" c = false ->
  String.eqb "nav-btn " c = false ->
  pick_list c [
    nav_btn (is_tab (activeTab a) TabUpload) (tab_label a TabUpload);
    nav_btn (is_tab (activeTab a) TabFiles) (tab_label a TabFiles);
    nav_btn (is_tab (activeTab a) TabAnalytics) (tab_label a TabAnalytics)] = [].
Proof.
  intros H1 H2. destruct (activeTab a); unfold nav_btn, tab_label; simpl is_tab; cbv iota;
    change ("nav-btn " +:+ "active") with "nav-btn active";
    change ("nav-btn " +:+ "") with "nav-btn ";
    autorewrite with pk; rewrite H1, H2; done.
Qed.

(** A class of the sections only: found in the sections of [<main>]. *)
Lemma pick_main c w sb page :
  App w sb = Ok page ->
  none_of ("nav-btn active" :: "nav-btn " :: frame_classes) c ->
  exists sections,
    main_sections (app w) (from_option snd initUploader (uploader w)) sb = Ok sections /\
    pick c page = pick_list c sections.
Proof.
  intros Hp H.
  destruct (pick_page c _ _ _ Hp) as (sections & Hs & ->).
  { intros x Hx. apply H. by do 2 right. }
  exists sections. split; [done|].
  rewrite pick_no_nav; [done|apply H; in_list..].
Qed.

(** X17. On the files tab the page shows exactly one of three things:
    while [loading], the loading placeholder and neither cards nor the empty
    state, even when files are held; otherwise, with no file, the empty
    state alone; otherwise one card per file, in the order of the
    collection, and neither placeholder. *)
Theorem files_tab_lists_cards w sb page :
  App w sb = Ok page ->
  activeTab (app w) = TabFiles ->
  if loading (app w) then
    pick "file-card" page = [] /\ pick "empty-state" page = [] /\
    length (pick "loading" page) = 1
  else if decide (files (app w) = []) then
    pick "file-card" page = [] /\ pick "loading" page = [] /\
    length (pick "empty-state" page) = 1
  else
    pick "loading" page = [] /\ pick "empty-state" page = [] /\
    Forall2 (fun f card => FileCard f = Ok card) (files (app w)) (pick "file-card" page).
Proof.
  intros Hp Ht.
  destruct (pick_main "file-card" _ _ _ Hp ltac:(concrete)) as (s1 & Hs & ->).
  destruct (pick_main "loading" _ _ _ Hp ltac:(concrete)) as (s2 & Hs2 & ->).
  destruct (pick_main "empty-state" _ _ _ Hp ltac:(concrete)) as (s3 & Hs3 & ->).
  rewrite Hs in Hs2, Hs3. injection Hs2 as <-. injection Hs3 as <-.
  revert Hs. unfold main_sections, files_body. rewrite Ht.
  destruct (loading (app w)).
  { intros [= <-]. autorewrite with pk. done. }
  destruct (files (app w)) as [|f l] eqn:Hf.
  { intros [= <-]. autorewrite with pk. done. }
  simpl length. simpl Nat.eqb. cbv iota.
  destruct (FileCards (f :: l)) as [cards|] eqn:E; [|done]. intros [= <-].
  pose proof (FileCards_Ok _ _ E) as Hc.
  rewrite decide_False by done.
  autorewrite with pk.
  rewrite (cards_are_file_cards _ _ Hc).
  rewrite (cards_have_no "loading" _ _ ltac:(concrete) eq_refl Hc).
  rewrite (cards_have_no "empty-state" _ _ ltac:(concrete) eq_refl Hc).
  simpl. done.
Qed.

(** The sections of [<main>] carry every element whose class is not one
    of the frame or of the navigation. *)
Lemma pick_sections w sb page :
  App w sb = Ok page ->
  exists sections,
    main_sections (app w) (form w) sb = Ok sections /\
    forall c, none_of ("nav-btn active" :: "nav-btn " :: frame_classes) c ->
      pick c page = pick_list c sections.
Proof.
  intros Hp.
  assert (exists sections, main_sections (app w) (form w) sb = Ok sections)
    as [sections Hs].
  { revert Hp. unfold App, form. destruct (main_sections _ _ _); [eauto|done]. }
  exists sections. split; [done|]. intros c H.
  destruct (pick_main c _ _ _ Hp H) as (s & Hs' & ->).
  unfold form in Hs. rewrite Hs in Hs'. by injection Hs' as <-.
Qed.

Lemma pick_upload_tab w sb page :
  App w sb = Ok page ->
  activeTab (app w) = TabUpload ->
  forall c,
    none_of ("upload-section" :: "nav-btn active" :: "nav-btn " :: frame_classes) c ->
    pick c page = pick c (FileUploader (form w)).
Proof.
  intros Hp Ht c [Hc H]%none_of_cons.
  destruct (pick_sections _ _ _ Hp) as (s & Hs & Hpick). rewrite (Hpick c H).
  revert Hs. unfold main_sections. rewrite Ht. intros [= <-].
  generalize (FileUploader (form w)). intros X.
  autorewrite with pk. rewrite Hc, (H "") by in_list. done.
Qed.

Lemma pick_files_tab w sb page :
  App w sb = Ok page ->
  activeTab (app w) = TabFiles ->
  exists body, files_body (app w) = Ok body /\
    forall c,
      none_of ("files-section" :: "files-header" :: "nav-btn active" :: "nav-btn "
                 :: frame_classes) c ->
      pick c page =
        pick c (SearchBar_view sb) ++
        (if String.eqb "reset-btn" c
         then [Tag "button" "reset-btn" [] [Text "Clear Search"]] else []) ++
        pick c body.
Proof.
  intros Hp Ht. destruct (pick_sections _ _ _ Hp) as (s & Hs & Hpick).
  revert Hs. unfold main_sections. rewrite Ht.
  destruct (files_body (app w)) as [body|]; [|done]. intros [= <-].
  exists body. split; [done|]. intros c [Hc1 [Hc2 H]%none_of_cons]%none_of_cons.
  rewrite (Hpick c H).
  generalize (SearchBar_view sb). intros X.
  autorewrite with pk. rewrite Hc1, Hc2, (H "") by in_list.
  autorewrite with pk. by rewrite <- ?app_assoc.
Qed.

Lemma pick_analytics_tab w sb page :
  App w sb = Ok page ->
  activeTab (app w) = TabAnalytics ->
  forall c, none_of ("nav-btn active" :: "nav-btn " :: frame_classes) c ->
    pick c page = match Analytics (analytics (app w)) with
                  | Some n => Component <$> select c n
                  | None => []
                  end.
Proof.
  intros Hp Ht c H.
  destruct (pick_sections _ _ _ Hp) as (s & Hs & Hpick). rewrite (Hpick c H).
  revert Hs. unfold main_sections. rewrite Ht. intros [= <-].
  destruct (Analytics _); [|done]. autorewrite with pk. done.
Qed.

Lemma uploader_is_file_uploader u :
  pick "file-uploader" (FileUploader u) = [FileUploader u].
Proof. destruct u as [[f|] t p up dz]; destruct dz; reflexivity. Qed.

Lemma searchbar_is_search_bar sb :
  pick "search-bar" (SearchBar_view sb) = [SearchBar_view sb].
Proof. reflexivity. Qed.

(** X18. The three views exclude each other: the upload section with its
    [FileUploader] is on the page exactly on the upload tab, the files
    section with its search bar and reset button exactly on the files tab,
    and the analytics view exactly on the analytics tab with a snapshot held
    (without one that tab is empty). *)
Theorem one_section_per_tab w sb page :
  App w sb = Ok page ->
  length (pick "upload-section" page) =
    (if decide (activeTab (app w) = TabUpload) then 1 else 0) /\
  pick "file-uploader" page =
    (if decide (activeTab (app w) = TabUpload) then [FileUploader (form w)] else []) /\
  length (pick "files-section" page) =
    (if decide (activeTab (app w) = TabFiles) then 1 else 0) /\
  pick "search-bar" page =
    (if decide (activeTab (app w) = TabFiles) then [SearchBar_view sb] else []) /\
  length (pick "reset-btn" page) =
    (if decide (activeTab (app w) = TabFiles) then 1 else 0) /\
  pick "analytics-section" page =
    (if decide (activeTab (app w) = TabAnalytics)
     then Component <$> option_list (Analytics (analytics (app w))) else []).
Proof.
  intros Hp. destruct (pick_sections _ _ _ Hp) as (s & Hs & Hsec).
  destruct (activeTab (app w)) eqn:Ht.
  - pose proof (pick_upload_tab _ _ _ Hp Ht) as Hpick.
    rewrite (Hpick "file-uploader"), (Hpick "files-section"), (Hpick "search-bar"),
      (Hpick "reset-btn"), (Hpick "analytics-section") by concrete.
    rewrite uploader_is_file_uploader.
    rewrite !uploader_has_no by concrete.
    rewrite (Hsec "upload-section") by concrete.
    revert Hs. unfold main_sections. rewrite Ht. intros [= <-].
    generalize (FileUploader (form w)) (uploader_has_no "upload-section" (form w)
      ltac:(concrete)). intros X HX.
    autorewrite with pk. rewrite HX. done.
  - destruct (pick_files_tab _ _ _ Hp Ht) as (body & Hb & Hpick).
    rewrite (Hpick "upload-section"), (Hpick "file-uploader"), (Hpick "search-bar"),
      (Hpick "reset-btn"), (Hpick "analytics-section") by concrete.
    rewrite searchbar_is_search_bar.
    rewrite !(searchbar_has_no _ sb) by concrete.
    rewrite (files_body_has_no "upload-section" _ _ ltac:(concrete) eq_refl Hb),
      (files_body_has_no "file-uploader" _ _ ltac:(concrete) eq_refl Hb),
      (files_body_has_no "search-bar" _ _ ltac:(concrete) eq_refl Hb),
      (files_body_has_no "reset-btn" _ _ ltac:(concrete) eq_refl Hb),
      (files_body_has_no "analytics-section" _ _ ltac:(concrete) eq_refl Hb).
    rewrite (Hsec "files-section") by concrete.
    revert Hs. unfold main_sections. rewrite Ht, Hb. intros [= <-].
    generalize (SearchBar_view sb) (searchbar_has_no "files-section" sb ltac:(concrete)).
    intros X HX. autorewrite with pk.
    rewrite HX, (files_body_has_no "files-section" _ _ ltac:(concrete) eq_refl Hb). done.
  - pose proof (pick_analytics_tab _ _ _ Hp Ht) as Hpick.
    rewrite (Hpick "upload-section"), (Hpick "file-uploader"), (Hpick "files-section"),
      (Hpick "search-bar"), (Hpick "reset-btn"), (Hpick "analytics-section") by concrete.
    destruct (Analytics _) as [n|] eqn:E; [|done].
    rewrite (analytics_select "analytics-section" _ _ ltac:(concrete) E).
    rewrite (analytics_has_no "upload-section" _ _ ltac:(concrete) E),
      (analytics_has_no "file-uploader" _ _ ltac:(concrete) E),
      (analytics_has_no "files-section" _ _ ltac:(concrete) E),
      (analytics_has_no "search-bar" _ _ ltac:(concrete) E),
      (analytics_has_no "reset-btn" _ _ ltac:(concrete) E). done.
Qed.

Lemma FileCard_Throw f e :
  FileCard f = Throw e <-> AIAnalysisCard (Rec.ai_analysis f) = Throw e.
Proof. unfold FileCard. destruct (AIAnalysisCard _); split; congruence. Qed.

Lemma FileCards_crash l f e :
  f ∈ l -> FileCard f = Throw e -> FileCards l = Throw e.
Proof.
  intros Hin Hf. assert (e = tags_error) as ->.
  { apply FileCard_Throw, AIAnalysisCard_Throw in Hf. tauto. }
  induction l as [|g l IH]; [by apply elem_of_nil in Hin|]. simpl.
  destruct (FileCard g) as [card|e] eqn:E.
  - apply elem_of_cons in Hin as [->|Hin]; [congruence|]. by rewrite (IH Hin).
  - apply FileCard_Throw, AIAnalysisCard_Throw in E. by destruct E as [-> _].
Qed.

(** X19. One record is enough to lose the page. When some file of the
    collection has an analysis whose [tags] is a non-empty string, rendering
    [App] on the files tab throws as soon as [loading] is false: the error
    of the card escapes the list and [App], which has no error boundary.
    While [loading] is true the cards are not rendered, and the page of the
    same world shows the loading placeholder. *)
Theorem page_crashes_with_card w sb f a s :
  f ∈ files (app w) ->
  Rec.ai_analysis f = Some a ->
  a !! "tags" = Some (JStr s) ->
  s <> "" ->
  activeTab (app w) = TabFiles ->
  if loading (app w)
  then exists page, App w sb = Ok page /\
         pick "file-card" page = [] /\ length (pick "loading" page) = 1
  else exists e, App w sb = Throw e.
Proof.
  intros Hin Ha Htags Hs Ht.
  unfold App, main_sections, files_body. rewrite Ht.
  destruct (loading (app w)).
  { eexists. split; [reflexivity|]. split; reflexivity. }
  destruct (files (app w)) as [|f0 l] eqn:Hf; [by apply elem_of_nil in Hin|].
  simpl length. simpl Nat.eqb. cbv iota.
  assert (FileCard f = Throw tags_error) as Hc.
  { apply FileCard_Throw, AIAnalysisCard_Throw. split; [done|]. eauto. }
  rewrite (FileCards_crash _ _ _ Hin Hc). eauto.
Qed.

(** X20. A file card shows the name, the size and date line and the icon
    of its record once each: the analysis card inside adds none. It has a
    tags row exactly when [tags] of the record is a non-empty array, and an
    analysis card exactly when the analysis is neither absent nor an object
    without keys; at most one of each. *)
Theorem file_card_parts f card :
  FileCard f = Ok card ->
  pick "file-name" card = [Tag "h3" "file-name" [] [Text (Rec.original_filename f)]] /\
  pick "file-meta" card =
    [Tag "p" "file-meta" [] [
       Text (megabytes (Rec.file_size f)); Text " MB • ";
       Text (formatDate (Rec.upload_timestamp f))]] /\
  pick "file-icon-large" card =
    [Tag "div" "file-icon-large" [] [Text (getFileIcon (Rec.file_type f))]] /\
  (pick "file-tags" card = [] <-> default [] (Rec.tags f) = []) /\
  (pick "ai-analysis-card" card = [] <->
     Rec.ai_analysis f = None \/ Rec.ai_analysis f = Some ∅) /\
  length (pick "file-tags" card) <= 1 /\
  length (pick "ai-analysis-card" card) <= 1.
Proof.
  intros Hc. destruct (FileCard_Ok _ _ Hc) as (analysis & Ha & ->).
  autorewrite with pk. rewrite !pick_file_tags. simpl.
  assert (Hn : forall c n, analysis = Some n ->
            none_of analysis_inner c -> String.prefix "confidence " c = false ->
            select c n = if String.eqb "ai-analysis-card" c then [n] else []).
  { intros c n -> H Hp. by apply (analysis_select _ _ _ H Hp Ha). }
  assert (Htags : file_tags (Rec.tags f) = [] <-> default [] (Rec.tags f) = []).
  { destruct (Rec.tags f) as [[|x l]|]; simpl; split; done. }
  assert (Hlen : length (file_tags (Rec.tags f)) <= 1).
  { destruct (Rec.tags f) as [[|x l]|]; simpl; lia. }
  destruct analysis as [n|].
  - autorewrite with pk.
    rewrite (Hn "file-name"), (Hn "file-meta"), (Hn "file-icon-large"), (Hn "file-tags"),
      (Hn "ai-analysis-card") by (done || concrete).
    simpl. rewrite !app_nil_r. repeat split; try tauto; try lia.
    + done.
    + intros H. apply AIAnalysisCard_None in H. congruence.
  - simpl. rewrite !app_nil_r. repeat split; try tauto; try lia.
    intros _. by apply AIAnalysisCard_None.
Qed.

(** X21. On every reachable page the controls are rendered exactly when
    their handlers can run. The upload button is shown enabled exactly when
    a click on it is handled: a form is displayed, a file is selected and no
    upload of the form is running. The tags field and the visibility box
    are shown exactly when a file is selected on the upload tab, the
    uploader with its drop zone and file input exactly on the upload tab,
    the search button and the reset button exactly on the files tab. *)
Theorem controls_match_handlers w sb page :
  reachable w ->
  App w sb = Ok page ->
  (is_Some (handler w ClickUpload) <->
     exists label,
       pick "upload-btn" page =
         [Tag "button" "upload-btn" [AttrB "disabled" false] label]) /\
  (forall s, is_Some (handler w (TypeTags s)) <-> pick "tags-input" page <> []) /\
  (forall b, is_Some (handler w (CheckPublic b)) <-> pick "checkbox-label" page <> []) /\
  (forall f, is_Some (handler w (SelectFile f)) <-> pick "file-uploader" page <> []) /\
  (forall f, is_Some (handler w (DropFile f)) <-> pick "file-uploader" page <> []) /\
  (forall p, is_Some (handler w (SubmitSearch p)) <-> pick "search-btn" page <> []) /\
  (is_Some (handler w ClickReset) <-> pick "reset-btn" page <> []).
Proof.
  intros Hr Hp. apply reachable_displayed in Hr. destruct Hr as [Hr1 Hr2].
  destruct (activeTab (app w)) eqn:Ht.
  - destruct (Hr2 eq_refl) as [[i u] Hu].
    pose proof (pick_upload_tab _ _ _ Hp Ht) as Hpick.
    rewrite (Hpick "upload-btn"), (Hpick "tags-input"), (Hpick "checkbox-label"),
      (Hpick "file-uploader"), (Hpick "search-btn"), (Hpick "reset-btn") by concrete.
    unfold form, handler. rewrite Hu, Ht. simpl from_option.
    destruct u as [[f|] t p up dz]; destruct dz, up; simpl.
    all: repeat split; intros; try done; eauto.
    all: try match goal with
             | H : is_Some None |- _ => by destruct H
             | H : exists _, _ = _ |- _ => by destruct H
             end.
  - destruct (uploader w) as [x|] eqn:Hu; [by discriminate Hr1|].
    destruct (pick_files_tab _ _ _ Hp Ht) as (body & Hb & Hpick).
    rewrite (Hpick "upload-btn"), (Hpick "tags-input"), (Hpick "checkbox-label"),
      (Hpick "file-uploader"), (Hpick "search-btn"), (Hpick "reset-btn") by concrete.
    rewrite (files_body_has_no "upload-btn" _ _ ltac:(concrete) eq_refl Hb),
      (files_body_has_no "tags-input" _ _ ltac:(concrete) eq_refl Hb),
      (files_body_has_no "checkbox-label" _ _ ltac:(concrete) eq_refl Hb),
      (files_body_has_no "file-uploader" _ _ ltac:(concrete) eq_refl Hb),
      (files_body_has_no "search-btn" _ _ ltac:(concrete) eq_refl Hb),
      (files_body_has_no "reset-btn" _ _ ltac:(concrete) eq_refl Hb).
    unfold handler. rewrite Hu, Ht. simpl.
    repeat split; intros; try done; eauto.
    all: try match goal with
             | H : is_Some None |- _ => by destruct H
             | H : exists _, _ = _ |- _ => by destruct H
             end.
  - destruct (uploader w) as [x|] eqn:Hu; [by discriminate Hr1|].
    pose proof (pick_analytics_tab _ _ _ Hp Ht) as Hpick.
    rewrite (Hpick "upload-btn"), (Hpick "tags-input"), (Hpick "checkbox-label"),
      (Hpick "file-uploader"), (Hpick "search-btn"), (Hpick "reset-btn") by concrete.
    unfold handler. rewrite Hu, Ht.
    destruct (Analytics _) as [n|] eqn:E.
    + rewrite (analytics_has_no "upload-btn" _ _ ltac:(concrete) E),
        (analytics_has_no "tags-input" _ _ ltac:(concrete) E),
        (analytics_has_no "checkbox-label" _ _ ltac:(concrete) E),
        (analytics_has_no "file-uploader" _ _ ltac:(concrete) E),
        (analytics_has_no "search-btn" _ _ ltac:(concrete) E),
        (analytics_has_no "reset-btn" _ _ ltac:(concrete) E). simpl.
      repeat split; intros; try done; eauto.
      all: try match goal with
               | H : is_Some None |- _ => by destruct H
               | H : exists _, _ = _ |- _ => by destruct H
               end.
    + repeat split; intros; try done; eauto.
      all: try match goal with
               | H : is_Some None |- _ => by destruct H
               | H : exists _, _ = _ |- _ => by destruct H
               end.
Qed.

(** X22. Dragging over the zone and leaving it only switch the highlight:
    after [handleDragOver] the zone is rendered with class
    [upload-zone drag-over], after [handleDragLeave] with class [upload-zone ]
    (the template leaves the blank). The selection and the other fields of
    the form, the state of [App] and the log are untouched. *)
Theorem drag_highlight w i u sb :
  uploader w = Some (i, u) ->
  activeTab (app w) = TabUpload ->
  exists wo wl po pl,
    step w DragOverZone = Some wo /\
    step w DragLeaveZone = Some wl /\
    uploader wo = Some (i, {| file := file u; tags := tags u; isPublic := isPublic u;
                              uploading := uploading u; dragOver := true |}) /\
    uploader wl = Some (i, {| file := file u; tags := tags u; isPublic := isPublic u;
                              uploading := uploading u; dragOver := false |}) /\
    app wo = app w /\ app wl = app w /\ log wo = log w /\ log wl = log w /\
    App wo sb = Ok po /\ App wl sb = Ok pl /\
    length (pick "upload-zone drag-over" po) = 1 /\ pick "upload-zone " po = [] /\
    pick "upload-zone drag-over" pl = [] /\ length (pick "upload-zone " pl) = 1.
Proof.
  intros Hu Ht. destruct w as [a up ms p nr lg]. simpl in *. subst up.
  unfold step, fire. js_unfold. simpl. rewrite ?Nat.eqb_refl. simpl.
  match goal with
  | |- exists wo wl _ _, Some ?x = _ /\ Some ?y = _ /\ _ =>
      set (wo := x); set (wl := y)
  end.
  assert (Hao : app wo = a) by apply render_commit_app.
  assert (Hal : app wl = a) by apply render_commit_app.
  assert (Huo : uploader wo = Some (i, {| file := file u; tags := tags u;
            isPublic := isPublic u; uploading := uploading u; dragOver := true |})).
  { unfold wo. rewrite render_commit_uploader. simpl. by rewrite Ht. }
  assert (Hul : uploader wl = Some (i, {| file := file u; tags := tags u;
            isPublic := isPublic u; uploading := uploading u; dragOver := false |})).
  { unfold wl. rewrite render_commit_uploader. simpl. by rewrite Ht. }
  assert (exists po, App wo sb = Ok po) as [po Hpo].
  { unfold App, main_sections. rewrite Hao, Ht. eauto. }
  assert (exists pl, App wl sb = Ok pl) as [pl Hpl].
  { unfold App, main_sections. rewrite Hal, Ht. eauto. }
  exists wo, wl, po, pl.
  rewrite (pick_upload_tab _ _ _ Hpo ltac:(by rewrite Hao) "upload-zone drag-over"),
    (pick_upload_tab _ _ _ Hpo ltac:(by rewrite Hao) "upload-zone "),
    (pick_upload_tab _ _ _ Hpl ltac:(by rewrite Hal) "upload-zone drag-over"),
    (pick_upload_tab _ _ _ Hpl ltac:(by rewrite Hal) "upload-zone ") by concrete.
  unfold form. rewrite Huo, Hul.
  repeat (split; [first [done | unfold wo, wl; by rewrite render_commit_log]|]).
  destruct (file u); simpl; done.
Qed.

End Views.

(** ** The page of the examples *)

Lemma uploader_shows_options_iff_file_witness :
  pick "upload-btn" (FileUploader (fmt := sample_format) initUploader) = [] /\
  length (pick "upload-prompt" (FileUploader (fmt := sample_format) initUploader)) = 1.
Proof.
  destruct (proj1 (uploader_shows_options_iff_file (fmt := sample_format) initUploader)
              eq_refl) as (_ & H1 & _ & H2).
  split; assumption.
Defined.

Lemma nav_marks_active_tab_witness :
  pick "nav-btn active" (rendered (fmt := sample_format) browsing SearchBar.init) =
    [nav_btn true [Text "📁 Files ("; Number 2; Text ")"]].
Proof.
  apply (proj1 (nav_marks_active_tab (fmt := sample_format) browsing SearchBar.init
                  (rendered (fmt := sample_format) browsing SearchBar.init) ltac:(vm_compute; reflexivity))).
Defined.

Lemma files_tab_lists_cards_witness :
  Forall2 (fun f card => FileCard (fmt := sample_format) f = Ok card) listing
    (pick "file-card" (rendered (fmt := sample_format) browsing SearchBar.init)).
Proof.
  assert (H := files_tab_lists_cards (fmt := sample_format) browsing SearchBar.init
                 (rendered (fmt := sample_format) browsing SearchBar.init)
                 ltac:(vm_compute; reflexivity) ltac:(vm_compute; reflexivity)).
  change (loading (app browsing)) with false in H. cbv iota in H.
  rewrite decide_False in H by (vm_compute; discriminate).
  exact (proj2 (proj2 H)).
Defined.

Lemma one_section_per_tab_witness :
  pick "search-bar" (rendered (fmt := sample_format) browsing SearchBar.init) =
    [SearchBar_view SearchBar.init] /\
  pick "file-uploader" (rendered (fmt := sample_format) browsing SearchBar.init) = [].
Proof.
  destruct (one_section_per_tab (fmt := sample_format) browsing SearchBar.init
              (rendered (fmt := sample_format) browsing SearchBar.init) ltac:(vm_compute; reflexivity))
    as (_ & H1 & _ & H2 & _).
  split; [exact H2 | exact H1].
Defined.

Lemma page_crashes_with_card_witness :
  exists e, App (fmt := sample_format) poisoned SearchBar.init = Throw e.
Proof.
  assert (Hin : mislabeled ∈ files (app poisoned)).
  { change (files (app poisoned)) with (listing ++ [mislabeled]).
    apply elem_of_app. right. apply list_elem_of_here. }
  assert (H := page_crashes_with_card (fmt := sample_format) poisoned SearchBar.init
                 mislabeled {[ "tags" := JStr "work" ]} "work" Hin eq_refl eq_refl
                 ltac:(discriminate) ltac:(vm_compute; reflexivity)).
  change (loading (app poisoned)) with false in H. exact H.
Defined.

Lemma file_card_parts_witness :
  exists card, FileCard (fmt := sample_format) scan = Ok card /\
    pick "file-icon-large" card = [Tag "div" "file-icon-large" [] [Text "🖼️"]] /\
    pick "file-tags" card = [] /\
    pick "ai-analysis-card" card <> [].
Proof.
  eexists. split; [vm_compute; reflexivity|].
  match goal with
  | |- context [pick _ ?card] =>
      destruct (file_card_parts (fmt := sample_format) scan card
                  ltac:(vm_compute; reflexivity))
        as (_ & _ & Hi & Ht & Ha & _)
  end.
  split; [exact Hi|]. split; [by apply Ht|].
  intros H. apply Ha in H as [H|H]; [discriminate H|].
  apply (f_equal (fun o => o ≫= (.!! "summary"))) in H. discriminate H.
Defined.

Lemma controls_match_handlers_witness :
  is_Some (handler selected ClickUpload) /\ ¬ is_Some (handler submitted ClickUpload).
Proof.
  destruct (controls_match_handlers (fmt := sample_format) selected SearchBar.init
              (rendered (fmt := sample_format) selected SearchBar.init) reachable_selected
              ltac:(vm_compute; reflexivity)) as (Hs & _).
  destruct (controls_match_handlers (fmt := sample_format) submitted SearchBar.init
              (rendered (fmt := sample_format) submitted SearchBar.init) reachable_submitted
              ltac:(vm_compute; reflexivity)) as (Hu & _).
  split.
  - apply Hs. eexists. vm_compute. reflexivity.
  - intros H. apply Hu in H as [label H]. vm_compute in H. discriminate H.
Defined.

Lemma drag_highlight_witness :
  exists wo po,
    step selected DragOverZone = Some wo /\
    App (fmt := sample_format) wo SearchBar.init = Ok po /\
    length (pick "upload-zone drag-over" po) = 1.
Proof.
  destruct (drag_highlight (fmt := sample_format) selected 0
              {| file := Some report; tags := "work, urgent"; isPublic := true;
                 uploading := false; dragOver := false |} SearchBar.init)
    as (wo & wl & po & pl & H1 & _ & _ & _ & _ & _ & _ & _ & H2 & _ & H3 & _);
    [vm_compute; reflexivity..|].
  exists wo, po. repeat split; assumption.
Defined.
